(** * endpoints: request dispatch core

    A shallow embedding of [endpoints/call.py] (module discovery, controller
    resolution, callback lookup, [Call.handle], [VersionCall]) and of
    [endpoints/decorators/call.py] (the [route] family of decorators),
    followed by the properties of the dispatch core that hold on it.

    Python strings are [string]s of bytes; dictionaries are [gmap]s; the
    set of controller modules is a [gset string]; exceptions are values of
    [exn] carried by the [result] type; the module-level [_module_cache]
    lives in an explicit program state threaded through the calls. *)

From Stdlib Require Import String Ascii ZArith List Bool Lia.
From stdpp Require Import base gmap sets list strings fin_maps.

Open Scope string_scope.

(** ** Python string methods used by the dispatch code *)

Module PyStr.

Definition upper_ascii (c : ascii) : ascii :=
  let n := nat_of_ascii c in
  if (97 <=? n)%nat && (n <=? 122)%nat then ascii_of_nat (n - 32) else c.

Definition lower_ascii (c : ascii) : ascii :=
  let n := nat_of_ascii c in
  if (65 <=? n)%nat && (n <=? 90)%nat then ascii_of_nat (n + 32) else c.

Fixpoint map_str (f : ascii -> ascii) (s : string) : string :=
  match s with
  | EmptyString => EmptyString
  | String c r => String (f c) (map_str f r)
  end.

(** [s.upper()] *)
Definition upper (s : string) : string := map_str upper_ascii s.

(** [s.lower()] *)
Definition lower (s : string) : string := map_str lower_ascii s.

(** [s.capitalize()]: first character upper-cased, the rest lower-cased. *)
Definition capitalize (s : string) : string :=
  match s with
  | EmptyString => EmptyString
  | String c r => String (upper_ascii c) (lower r)
  end.

(** [s.startswith(p)] *)
Definition startswith (s p : string) : bool := String.prefix p s.

(** [s.endswith(p)] *)
Definition endswith (s p : string) : bool :=
  let n := String.length s in
  let k := String.length p in
  (k <=? n)%nat && String.eqb (substring (n - k) k s) p.

(** [sep.join(l)] *)
Definition join (sep : string) (l : list string) : string :=
  String.concat sep l.

(** [bool(s)]: a string is true when it is not empty. *)
Definition truthy (s : string) : bool :=
  match s with
  | EmptyString => false
  | String _ _ => true
  end.

(** Truth value of an attribute that is either [None] or a string. *)
Definition truthy_opt (o : option string) : bool :=
  match o with
  | Some s => truthy s
  | None => false
  end.

Definition is_slash (c : ascii) : bool := Ascii.eqb c "/"%char.
Definition is_dot (c : ascii) : bool := Ascii.eqb c "."%char.

Fixpoint drop_while (p : ascii -> bool) (l : list ascii) : list ascii :=
  match l with
  | [] => []
  | c :: r => if p c then drop_while p r else l
  end.

(** [os.path.dirname(p)] (posixpath): the head up to the last slash,
    with trailing slashes removed unless the head is made of slashes
    only. *)
Definition dirname (p : string) : string :=
  let rhead := drop_while (fun c => negb (is_slash c))
                          (List.rev (list_ascii_of_string p)) in
  if forallb is_slash rhead
  then string_of_list_ascii (List.rev rhead)
  else string_of_list_ascii (List.rev (drop_while is_slash rhead)).

(** [os.path.splitext(f)[0]] for a name without separator: the part before
    the last dot, unless only dots come before it (leading dots do not
    start an extension). *)
Definition splitext_root (f : string) : string :=
  let chars := list_ascii_of_string f in
  let rtail := drop_while (fun c => negb (is_dot c)) (List.rev chars) in
  match rtail with
  | [] => f
  | _dot :: rroot =>
      if forallb is_dot rroot then f
      else string_of_list_ascii (List.rev rroot)
  end.

End PyStr.

(** ** Exceptions and results *)

(** Built-in exception classes that the dispatch code can meet.  A class
    defined by user code is represented by the built-in it derives from.
    [SystemExit], [KeyboardInterrupt] and [GeneratorExit] derive from
    [BaseException] directly, all others from [Exception]. *)
Inductive exn_class :=
  | ImportError | AttributeError | ValueError | TypeError | NameError
  | IndexError | KeyError | RuntimeError | OSError
  | SystemExit | KeyboardInterrupt | GeneratorExit.

(** An exception object: an instance of a built-in class with its message,
    or a [CallError(code, msg)], the [RuntimeError] subclass that carries an
    HTTP status code. *)
Inductive exn :=
  | Exc (cls : exn_class) (message : string)
  | CallError (code : Z) (message : string).

(** [e.message] *)
Definition e_message (e : exn) : string :=
  match e with
  | Exc _ m => m
  | CallError _ m => m
  end.

(** [isinstance(e, Exception)] *)
Definition is_Exception (e : exn) : bool :=
  match e with
  | Exc SystemExit _ | Exc KeyboardInterrupt _ | Exc GeneratorExit _ => false
  | _ => true
  end.

(** [isinstance(e, (ImportError, AttributeError))] *)
Definition is_ImportError_or_AttributeError (e : exn) : bool :=
  match e with
  | Exc ImportError _ | Exc AttributeError _ => true
  | _ => false
  end.

(** [isinstance(e, AttributeError)] *)
Definition is_AttributeError (e : exn) : bool :=
  match e with
  | Exc AttributeError _ => true
  | _ => false
  end.

Inductive result (A : Type) :=
  | Ok (a : A)
  | Raise (e : exn).
Arguments Ok {A} a.
Arguments Raise {A} e.

(** ** Requests, responses and the objects resolution works on *)

(** What the core reads from [http.Request]. *)
Record Request := {
  req_method : string;
  req_path : string;
  path_args : list string;
  query_kwargs : gmap string string;
  req_headers : gmap string string
}.

(** What [Call.handle] stores in [response.body]: nothing yet, the value
    returned by the controller, or the exception object. *)
Inductive body_value :=
  | BodyUnset
  | BodyValue (v : string)
  | BodyError (e : exn).

(** What the core writes to [http.Response]. *)
Record Response := {
  resp_code : Z;
  resp_headers : gmap string (option string);
  resp_body : body_value
}.

(** A bound method of a controller instance, called with the positional
    and the keyword arguments.  The instance holds the response object of
    the call and may write to it: the method is given the response as it is
    when it is called and leaves, next to its value or exception, the
    response as it has made it. *)
Definition Callback : Type :=
  list string -> gmap string string -> Response -> result string * Response.

(** A controller instance: its attributes by name, and what
    [instance.call = self] does. *)
Record Instance := {
  inst_attrs : gmap string Callback;
  inst_set_call : result unit
}.

(** An attribute of a module.  [is_handler_class] records whether the object
    is a controller class; [construct] is what calling the object with
    [(request, response)] does (a [TypeError] for an object that cannot be
    called that way): the instance or the exception, and the response as
    the constructor leaves it. *)
Record pyobject := {
  is_handler_class : bool;
  construct : Request -> Response -> result Instance * Response
}.

(** A module as [importlib.import_module] returns it for a package or a
    source file: its [__file__] and its attributes.  A module without
    [__file__] (a built-in one) is not represented; for such a controller
    prefix [os.path.dirname(module.__file__)] raises an [AttributeError]
    before anything is cached, a case the statements about
    [get_controllers] below leave aside by speaking of modules of this
    type. *)
Record pymodule := {
  mod_file : string;
  mod_attrs : gmap string pyobject
}.

(** [hasattr(module, name)] *)
Definition hasattr (m : pymodule) (name : string) : bool :=
  bool_decide (is_Some (mod_attrs m !! name)).

(** [getattr(module, name)] *)
Definition getattr (m : pymodule) (name : string) : result pyobject :=
  match mod_attrs m !! name with
  | Some o => Ok o
  | None => Raise (Exc AttributeError
                     ("'module' object has no attribute '" +:+ name +:+ "'"))
  end.

(** [getattr(instance, name)] *)
Definition getattr_instance (i : Instance) (name : string) : result Callback :=
  match inst_attrs i !! name with
  | Some cb => Ok cb
  | None => Raise (Exc AttributeError
                     ("object has no attribute '" +:+ name +:+ "'"))
  end.

(** A directory as [os.walk] sees it: its name, the plain files it holds and
    its sub-directories, in the order [os.listdir] reports them. *)
#[warnings="-register-all"]
Inductive dirtree :=
  | Dir (name : string) (files : list string) (subdirs : list dirtree).

Definition dir_name (t : dirtree) : string :=
  match t with Dir n _ _ => n end.

(** Modelled from the spec: [utils.AcceptHeader] is not part of the sources
    at hand.  A media-type entry has a type, a subtype and a parameter map
    (section 3, MediaTypeEntry); the dispatch code reads the parameter map
    as [mt[2]]. *)
Record MediaType := {
  mt_type : string;
  mt_subtype : string;
  mt_params : gmap string string
}.

(** The collaborators of the dispatch code that live outside of it:
    [importlib.import_module], the directory found by [os.walk] at a path
    ([None] when the path cannot be listed, in which case [os.walk] yields
    nothing), and [AcceptHeader(header).filter(content_type)]. *)
Record Env := {
  import_module : string -> result pymodule;
  os_walk : string -> option dirtree;
  accept_filter : string -> string -> list MediaType
}.

(** ** Program state: the module cache *)

(** References to set objects are indices into the heap. *)
Abbreviation loc := nat.

(** A value stored in [_module_cache]: the [{}] put there by [setdefault],
    or a reference to a set object. *)
Inductive cache_entry :=
  | EmptyDict
  | SetRef (l : loc).

(** The global [_module_cache] and the set objects allocated so far. *)
Record pystate := {
  module_cache : gmap string cache_entry;
  heap : list (gset string)
}.

Definition initial_state : pystate :=
  {| module_cache := ∅; heap := [] |}.

(** [name in cset] *)
Definition contains (st : pystate) (cset : cache_entry) (name : string) : bool :=
  match cset with
  | EmptyDict => false
  | SetRef l =>
      match heap st !! l with
      | Some s => bool_decide (name ∈ s)
      | None => false
      end
  end.

(** Computations that read and update the state and may raise. *)
Definition M (A : Type) : Type := pystate -> result A * pystate.

Definition ret {A} (a : A) : M A := fun st => (Ok a, st).

Definition raise {A} (e : exn) : M A := fun st => (Raise e, st).

Definition bind {A B} (m : M A) (k : A -> M B) : M B :=
  fun st =>
    match m st with
    | (Ok a, st') => k a st'
    | (Raise e, st') => (Raise e, st')
    end.

Definition lift {A} (r : result A) : M A := fun st => (r, st).

Definition get_state : M pystate := fun st => (Ok st, st).

(** [try: m  except <classes matched by handles>, e: handler e] *)
Definition try_except {A} (m : M A) (handles : exn -> bool)
    (handler : exn -> M A) : M A :=
  fun st =>
    match m st with
    | (Ok a, st') => (Ok a, st')
    | (Raise e, st') => if handles e then handler e st' else (Raise e, st')
    end.

Declare Scope py_scope.
Delimit Scope py_scope with py.
Notation "x <- m ;; k" := (bind m (fun x => k))
  (at level 100, m at next level, right associativity) : py_scope.

Open Scope py_scope.

(** ** [get_controllers]: module discovery *)

Definition first_char_is (c : ascii) (d : string) : bool :=
  match d with
  | String c' _ => Ascii.eqb c' c
  | EmptyString => false
  end.

(** The condition of the comprehension that rewrites [dirs] in place:
    [d[0] != '.' or d[0] != '_'].  ([os.listdir] reports no empty name, for
    which [d[0]] would fail.) *)
Definition keep_dir (d : string) : bool :=
  negb (first_char_is "."%char d) || negb (first_char_is "_"%char d).

(** [fnmatch.filter(files, '*.py')] on a POSIX system: the names that end
    in [.py]. *)
Definition fnmatch_py (files : list string) : list string :=
  List.filter (fun f => PyStr.endswith f ".py") files.

(** The body of [for f in fnmatch.filter(files, '*.py')], for the directory
    whose dotted name has the components [module_name]. *)
Definition add_file (module_name : list string) (modules : gset string)
    (f : string) : gset string :=
  if PyStr.startswith f "__init__" then
    {[ PyStr.join "." module_name ]} ∪ modules
  else if negb (PyStr.startswith f "_") then
    let file_name := PyStr.splitext_root f in
    {[ PyStr.join "." (module_name ++ [file_name]) ]} ∪ modules
  else modules.

(** The loop over [os.walk(basedir, topdown=True)].  [os.walk] reports
    [root] as [basedir] joined with the names of the directories entered,
    so [filter(None, root.replace(basedir, '', 1).split('/'))] is the list
    [rel] of these names.  After the body has run for a directory, the walk
    goes down into the entries left in [dirs], that is, those the
    comprehension keeps. *)
Fixpoint walk (controller_prefix : string) (rel : list string) (t : dirtree)
    (modules : gset string) {struct t} : gset string :=
  match t with
  | Dir _ files subdirs =>
      let module_name := controller_prefix :: rel in
      let modules := fold_left (add_file module_name) (fnmatch_py files) modules in
      (fix walk_dirs (dirs : list dirtree) (modules : gset string) : gset string :=
         match dirs with
         | [] => modules
         | d :: dirs' =>
             if keep_dir (dir_name d)
             then walk_dirs dirs'
                    (walk controller_prefix (rel ++ [dir_name d]) d modules)
             else walk_dirs dirs' modules
         end) subdirs modules
  end.

(** [d.setdefault(k, v)] *)
Definition setdefault (k : string) (v : cache_entry)
    (d : gmap string cache_entry) : gmap string cache_entry :=
  match d !! k with
  | Some _ => d
  | None => <[k := v]> d
  end.

Definition get_controllers (env : Env) (controller_prefix : string)
    : M cache_entry :=
  fun st =>
    if negb (PyStr.truthy controller_prefix) then
      (Raise (Exc ValueError "controller prefix is empty"), st)
    else
      match module_cache st !! controller_prefix with
      | Some cached => (Ok cached, st)
      | None =>
          match import_module env controller_prefix with
          | Raise e => (Raise e, st)
          | Ok module =>
              let basedir := PyStr.dirname (mod_file module) in
              let l := length (heap st) in
              let modules :=
                match os_walk env basedir with
                | Some t => walk controller_prefix [] t ∅
                | None => ∅
                end in
              let cache := setdefault controller_prefix EmptyDict (module_cache st) in
              let cache := <[controller_prefix := SetRef l]> cache in
              (Ok (SetRef l), {| module_cache := cache; heap := heap st ++ [modules] |})
          end
      end.

(** ** [Call]: controller resolution and dispatch *)

Inductive call_class := Call_class | VersionCall_class.

(** A [Call] (or [VersionCall]) instance with its request and response. *)
Record Call := {
  call_cls : call_class;
  controller_prefix : string;
  content_type : option string;
  default_version : option string;
  request : Request;
  response : Response
}.

(** The dictionary [d] built by [get_controller_info_*]. *)
Record ControllerInfo := {
  module_name : string;
  class_name : string;
  module : pymodule;
  class : pyobject;
  method : string;
  args : list string;
  kwargs : gmap string string
}.

(** The [for mt in a.filter(self.content_type)] loop of [get_version]. *)
Fixpoint version_loop (v : option string) (mts : list MediaType) : option string :=
  match mts with
  | [] => v
  | mt :: mts' =>
      let v := mt_params mt !! "version" in
      if PyStr.truthy_opt v then v else version_loop v mts'
  end.

(** ["{}".format(o)] for an attribute that is [None] or a string. *)
Definition str_of_opt (o : option string) : string :=
  match o with Some s => s | None => "None" end.

(** [VersionCall.get_version] *)
Definition get_version (env : Env) (c : Call) : result string :=
  if negb (PyStr.truthy_opt (content_type c)) then
    Raise (Exc ValueError "You are versioning a call with no content_type")
  else
    let v : option string := None in
    let h := req_headers (request c) in
    let accept_header := default "" (h !! "accept") in
    let v :=
      if PyStr.truthy accept_header
      then version_loop v (accept_filter env accept_header (str_of_opt (content_type c)))
      else v in
    if negb (PyStr.truthy_opt v) then
      let v := default_version c in
      if negb (PyStr.truthy_opt v) then
        Raise (CallError 406
                 ("Expected accept header with " +:+ str_of_opt (content_type c)
                  +:+ ";version=N media type"))
      else Ok (default "" v)
    else Ok (default "" v).

(** [get_normalized_prefix], of [Call] and as overridden by [VersionCall]. *)
Definition get_normalized_prefix (env : Env) (c : Call) : result string :=
  match call_cls c with
  | Call_class => Ok (controller_prefix c)
  | VersionCall_class =>
      let cp := controller_prefix c in
      match get_version env c with
      | Raise e => Raise e
      | Ok v => if PyStr.truthy cp then Ok (cp +:+ "." +:+ v) else Ok v
      end
  end.

(** The [while path_args] loop of [get_controller_info_advanced]: returns
    [module_name] and what is left of [path_args]. *)
Fixpoint module_walk (in_cset : string -> bool) (module_name mod_name : string)
    (path_args : list string) : string * list string :=
  match path_args with
  | [] => (module_name, path_args)
  | p0 :: rest =>
      let mod_name := mod_name +:+ "." +:+ p0 in
      if in_cset mod_name
      then module_walk in_cset mod_name mod_name rest
      else (module_name, path_args)
  end.

(** The [if path_args] block that picks the class name: returns
    [class_name] and what is left of [path_args]. *)
Definition class_pick (m : pymodule) (path_args : list string)
    : string * list string :=
  match path_args with
  | [] => ("Default", path_args)
  | p0 :: rest =>
      let class_name := PyStr.capitalize p0 in
      if hasattr m class_name then (class_name, rest) else ("Default", path_args)
  end.

Definition get_controller_info_advanced (env : Env) (c : Call)
    : M ControllerInfo :=
  let req := request c in
  let path_args := path_args req in
  let method := PyStr.upper (req_method req) in
  controller_prefix <- lift (get_normalized_prefix env c) ;;
  cset <- get_controllers env controller_prefix ;;
  st <- get_state ;;
  let '(module_name, path_args) :=
    module_walk (contains st cset) controller_prefix controller_prefix path_args in
  module <- lift (import_module env module_name) ;;
  let '(class_name, path_args) := class_pick module path_args in
  class <- lift (getattr module class_name) ;;
  ret {| module_name := module_name; class_name := class_name;
         module := module; class := class; method := method;
         args := path_args; kwargs := query_kwargs req |}.

Definition get_controller_info_simple (env : Env) (c : Call)
    : result ControllerInfo :=
  let req := request c in
  let path_args := path_args req in
  let method := PyStr.upper (req_method req) in
  (* the first arg is the module *)
  match
    match path_args with
    | [] => Ok ("default", path_args)
    | module_name :: rest =>
        if PyStr.startswith module_name "_"
        then Raise (Exc ValueError (module_name +:+ " is an invalid"))
        else Ok (module_name, rest)
    end
  with
  | Raise e => Raise e
  | Ok (module_name, path_args) =>
      match get_normalized_prefix env c with
      | Raise e => Raise e
      | Ok controller_prefix =>
          let module_name :=
            if PyStr.truthy controller_prefix
            then PyStr.join "." [controller_prefix; module_name]
            else module_name in
          (* the second arg is the Class *)
          match
            match path_args with
            | [] => Ok ("Default", path_args)
            | class_name :: rest =>
                if PyStr.startswith class_name "_"
                then Raise (Exc ValueError (class_name +:+ " is invalid"))
                else Ok (PyStr.capitalize class_name, rest)
            end
          with
          | Raise e => Raise e
          | Ok (class_name, path_args) =>
              match import_module env module_name with
              | Raise e => Raise e
              | Ok module =>
                  match getattr module class_name with
                  | Raise e => Raise e
                  | Ok class =>
                      Ok {| module_name := module_name; class_name := class_name;
                            module := module; class := class; method := method;
                            args := path_args; kwargs := query_kwargs req |}
                  end
              end
          end
      end
  end.

Definition get_controller_info (env : Env) (c : Call) : M ControllerInfo :=
  get_controller_info_advanced env c.

Definition not_found_message (r : Request) (e : exn) : string :=
  req_path r +:+ " not found because of error: " +:+ e_message e.

Definition not_supported_message (r : Request) : string :=
  req_method r +:+ " " +:+ req_path r +:+ " not supported".

(** The body of the second [try] block of [get_callback_info]: build the
    instance and fetch the bound method.  Returns the method or the
    exception, and [self.response] as the constructor has left it. *)
Definition instantiate (c : Call) (d : ControllerInfo) : result Callback * Response :=
  match construct (class d) (request c) (response c) with
  | (Raise e, r) => (Raise e, r)
  | (Ok instance, r) =>
      match inst_set_call instance with
      | Raise e => (Raise e, r)
      | Ok _ => (getattr_instance instance (method d), r)
      end
  end.

(** [Call.get_callback_info].  Next to the callback information or the
    exception and the state, the result holds [self.response] as it is when
    the method is left. *)
Definition get_callback_info (env : Env) (c : Call)
    : pystate ->
      result (Callback * list string * gmap string string) * Response * pystate :=
  fun st =>
    match
      try_except (get_controller_info env c)
        is_ImportError_or_AttributeError
        (fun e => raise (CallError 404 (not_found_message (request c) e))) st
    with
    | (Raise e, st') => (Raise e, response c, st')
    | (Ok d, st') =>
        match instantiate c d with
        | (Ok callback, r) => (Ok (callback, args d, kwargs d), r, st')
        | (Raise e, r) =>
            if is_AttributeError e
            then (Raise (CallError 405 (not_supported_message (request c))), r, st')
            else (Raise e, r, st')
        end
    end.

Definition set_header (k : string) (v : option string) (r : Response) : Response :=
  {| resp_code := resp_code r;
     resp_headers := <[k := v]> (resp_headers r);
     resp_body := resp_body r |}.

Definition set_body (b : body_value) (r : Response) : Response :=
  {| resp_code := resp_code r; resp_headers := resp_headers r; resp_body := b |}.

Definition set_code (code : Z) (r : Response) : Response :=
  {| resp_code := code; resp_headers := resp_headers r; resp_body := resp_body r |}.

(** The [except] clauses of [Call.handle], tried in order on the exception
    [e] with [self.response] being [r]; an exception that neither clause
    matches leaves [handle]. *)
Definition handle_except (r : Response) (e : exn) : result Response :=
  match e with
  | CallError code _ => Ok (set_body (BodyError e) (set_code code r))
  | _ =>
      if is_Exception e
      then Ok (set_body (BodyError e) (set_code 500 r))
      else Raise e
  end.

(** [Call.handle] *)
Definition handle (env : Env) (c : Call) : M Response :=
  fun st =>
    match get_callback_info env c st with
    | (Raise e, r, st') => (handle_except r e, st')
    | (Ok (callback, callback_args, callback_kwargs), r, st') =>
        let r := set_header "Content-Type" (content_type c) r in
        match callback callback_args callback_kwargs r with
        | (Raise e, r) => (handle_except r e, st')
        | (Ok body, r) => (Ok (set_body (BodyValue body) r), st')
        end
    end.

(** ** [decorators/call.py]: the [route] family *)

Module Decorators.

(** The exceptions of [..exception] raised by the decorators, next to the
    ordinary ones. *)
Inductive dexn :=
  | Base (e : exn)
  | RouteError
  | VersionError (req_version : string) (versions : gset string).

Inductive dresult (A : Type) :=
  | DOk (a : A)
  | DRaise (e : dexn).
Arguments DOk {A} a.
Arguments DRaise {A} e.

Definition dbind {A B} (m : dresult A) (k : A -> dresult B) : dresult B :=
  match m with
  | DOk a => k a
  | DRaise e => DRaise e
  end.

Notation "x <-- m ;; k" := (dbind m (fun x => k))
  (at level 100, m at next level, right associativity).

(** What the decorators read from a controller instance. *)
Record Controller := {
  ctl_request : Request;
  ctl_content_type : option string
}.

(** A method of a controller class, before or after decoration. *)
Definition ControllerMethod : Type :=
  Controller -> list string -> gmap string string -> dresult string.

(** Parts of the framework the decorators call that are not in this file:
    [Request.version], [Url.normalize_paths] and the [controller_info]
    attached to the request. *)
Record DecEnv := {
  request_version : Request -> option string -> string;
  normalize_paths : list string -> list string;
  method_args : Request -> list string
}.

Definition could_not_find (req : Request) : string :=
  "Could not find a method to satisfy " +:+ req_path req.

(** [route.handle_failure] *)
Definition route_handle_failure (controller : Controller) : dresult unit :=
  let req := ctl_request controller in
  DRaise (Base (CallError 405 (could_not_find req))).

(** [param_route.handle_failure] *)
Definition param_route_handle_failure (controller : Controller) : dresult unit :=
  DRaise (Base (CallError 400 (could_not_find (ctl_request controller)))).

(** The loop of [path_route.target], repeated at the end of
    [version.target]: every normalized path must equal the method
    argument at the same index. *)
Fixpoint paths_loop (pas method_args : list string) : bool :=
  match pas with
  | [] => true
  | p :: pas' =>
      match method_args with
      | [] => false                      (* IndexError *)
      | a :: method_args' =>
          if String.eqb a p then paths_loop pas' method_args' else false
      end
  end.

(** Values that a name or an attribute in the decorators can hold. *)
Inductive pyv :=
  | VRequest (r : Request)
  | VStrings (l : list string)
  | VSet (s : gset string)
  | VOptStr (o : option string)
  | VGlobal (name : string)
  | VSelf.

(** A decorator instance: the attributes set on it so far. *)
Definition DecoratorInstance : Type := gmap string pyv.

(** [self.<name>] *)
Definition self_attr (self : DecoratorInstance) (name : string) : dresult pyv :=
  match self !! name with
  | Some v => DOk v
  | None => DRaise (Base (Exc AttributeError
               ("object has no attribute '" +:+ name +:+ "'")))
  end.

(** Names bound at the top level of the module, by its imports and its
    class definitions. *)
Definition module_globals : list string :=
  [ "unicode_literals"; "division"; "print_function"; "absolute_import";
    "logging"; "inspect"; "re"; "CallError"; "RouteError"; "VersionError";
    "Url"; "ControllerDecorator"; "logger";
    "route"; "path_route"; "param_route"; "version" ].

(** Names of the built-in namespace (Python 2.7). *)
Definition builtins : list string :=
  [ "abs"; "all"; "any"; "apply"; "basestring"; "bin"; "bool"; "buffer";
    "bytearray"; "bytes"; "callable"; "chr"; "classmethod"; "cmp"; "coerce";
    "compile"; "complex"; "copyright"; "credits"; "delattr"; "dict"; "dir";
    "divmod"; "enumerate"; "eval"; "execfile"; "exit"; "file"; "filter";
    "float"; "format"; "frozenset"; "getattr"; "globals"; "hasattr"; "hash";
    "help"; "hex"; "id"; "input"; "int"; "intern"; "isinstance";
    "issubclass"; "iter"; "len"; "license"; "list"; "locals"; "long"; "map";
    "max"; "memoryview"; "min"; "next"; "object"; "oct"; "open"; "ord";
    "pow"; "print"; "property"; "quit"; "range"; "raw_input"; "reduce";
    "reload"; "repr"; "reversed"; "round"; "set"; "setattr"; "slice";
    "sorted"; "staticmethod"; "str"; "sum"; "super"; "tuple"; "type";
    "unichr"; "unicode"; "vars"; "xrange"; "zip"; "True"; "False"; "None";
    "Ellipsis"; "NotImplemented"; "__debug__"; "__doc__"; "__import__";
    "__name__"; "__package__";
    "ArithmeticError"; "AssertionError"; "AttributeError"; "BaseException";
    "BufferError"; "BytesWarning"; "DeprecationWarning"; "EOFError";
    "EnvironmentError"; "Exception"; "FloatingPointError"; "FutureWarning";
    "GeneratorExit"; "IOError"; "ImportError"; "ImportWarning";
    "IndentationError"; "IndexError"; "KeyError"; "KeyboardInterrupt";
    "LookupError"; "MemoryError"; "NameError"; "NotImplementedError";
    "OSError"; "OverflowError"; "PendingDeprecationWarning";
    "ReferenceError"; "RuntimeError"; "RuntimeWarning"; "StandardError";
    "StopIteration"; "SyntaxError"; "SyntaxWarning"; "SystemError";
    "SystemExit"; "TabError"; "TypeError"; "UnboundLocalError";
    "UnicodeDecodeError"; "UnicodeEncodeError"; "UnicodeError";
    "UnicodeTranslateError"; "UnicodeWarning"; "UserWarning"; "ValueError";
    "Warning"; "ZeroDivisionError" ].

Definition mem (x : string) (l : list string) : bool :=
  existsb (String.eqb x) l.

(** Reading the name [name] inside a function whose local variables are
    [locals]: the local if there is one, else the module global, else the
    built-in, else a [NameError] (with the message Python 2 gives). *)
Definition load_name (locals : gmap string pyv) (name : string) : dresult pyv :=
  match locals !! name with
  | Some v => DOk v
  | None =>
      if mem name module_globals || mem name builtins
      then DOk (VGlobal name)
      else DRaise (Base (Exc NameError
                     ("global name '" +:+ name +:+ "' is not defined")))
  end.

(** [obj.version(content_type)] *)
Definition call_version (env : DecEnv) (obj content_type : pyv) : dresult string :=
  match obj, content_type with
  | VRequest r, VOptStr ct => DOk (request_version env r ct)
  | _, _ => DRaise (Base (Exc AttributeError "object has no attribute 'version'"))
  end.

(** [x not in container] *)
Definition not_in (x : string) (container : pyv) : dresult bool :=
  match container with
  | VSet s => DOk (negb (bool_decide (x ∈ s)))
  | VStrings l => DOk (negb (mem x l))
  | _ => DRaise (Base (Exc TypeError "argument is not iterable"))
  end.

(** [version.target(self, request)] *)
Definition version_target (env : DecEnv) (self : DecoratorInstance)
    (request : Request) : dresult bool :=
  let locals : gmap string pyv := {[ "self" := VSelf; "request" := VRequest request ]} in
  req <-- load_name locals "req" ;;
  content_type <-- self_attr self "content_type" ;;
  req_version <-- call_version env req content_type ;;
  versions <-- load_name locals "versions" ;;
  outside <-- not_in req_version versions ;;
  if (outside : bool) then
    slf <-- load_name locals "slf" ;;
    match versions with
    | VSet s => DRaise (VersionError req_version s)
    | _ => DRaise (VersionError req_version ∅)
    end
  else
    paths <-- self_attr self "paths" ;;
    match paths with
    | VStrings paths =>
        let pas := normalize_paths env paths in
        DOk (paths_loop pas (method_args env request))
    | _ => DRaise (Base (Exc TypeError "paths is not a sequence"))
    end.

(** [path_route.target(self, request)] *)
Definition path_route_target (env : DecEnv) (self : DecoratorInstance)
    (request : Request) : dresult bool :=
  paths <-- self_attr self "paths" ;;
  match paths with
  | VStrings paths =>
      let pas := normalize_paths env paths in
      DOk (paths_loop pas (method_args env request))
  | _ => DRaise (Base (Exc TypeError "paths is not a sequence"))
  end.

(** What applying a decorator to [func] installs. *)
Inductive installed :=
  | ByTarget (func : ControllerMethod)
             (target : DecEnv -> DecoratorInstance -> Request -> dresult bool)
             (self : DecoratorInstance)
  | Wrapped (decorated : ControllerMethod).

(** The first [decorate] in the body of class [version]:
    [self.versions = set(versions)], then the decoration of the base
    class with [target=self.target]. *)
Definition version_decorate_first (env : DecEnv) (self : DecoratorInstance)
    (func : ControllerMethod) (versions : list string) : installed :=
  let self := <["versions" := VSet (list_to_set versions)]> self in
  ByTarget func version_target self.

(** The second [decorate] in the body of class [version]: returns the
    closure [decorated]. *)
Definition version_decorate_second (env : DecEnv) (slf : DecoratorInstance)
    (func : ControllerMethod) (versions : list string) : installed :=
  let versions : gset string := list_to_set versions in
  Wrapped (fun self args kwargs =>
    let req := ctl_request self in
    let req_version := request_version env req (ctl_content_type self) in
    if negb (bool_decide (req_version ∈ versions)) then
      DRaise (VersionError req_version versions)
    else func self args kwargs).

(** A function definition in a class body. *)
Inductive method_def :=
  | Def_handle_failure (f : Controller -> dresult unit)
  | Def_target (f : DecEnv -> DecoratorInstance -> Request -> dresult bool)
  | Def_decorate (f : DecEnv -> DecoratorInstance -> ControllerMethod ->
                      list string -> installed)
  | Def_other.

Inductive decorator_class := route | path_route | param_route | version.

(** The [def] statements of each class body, in source order. *)
Definition class_body (c : decorator_class) : list (string * method_def) :=
  match c with
  | route =>
      [ ("handle_definition", Def_other); ("handle", Def_other);
        ("decorate", Def_other); ("normalize_target_params", Def_other);
        ("handle_error", Def_other);
        ("handle_failure", Def_handle_failure route_handle_failure) ]
  | path_route =>
      [ ("decorate", Def_other); ("target", Def_target path_route_target) ]
  | param_route =>
      [ ("decorate", Def_other); ("target", Def_other);
        ("handle_failure", Def_handle_failure param_route_handle_failure) ]
  | version =>
      [ ("decorate", Def_decorate version_decorate_first);
        ("target", Def_target version_target);
        ("decorate", Def_decorate version_decorate_second) ]
  end.

(** Executing a class body: each [def] binds its name in the class
    namespace, replacing an earlier binding of the same name. *)
Definition class_namespace (c : decorator_class) : gmap string method_def :=
  fold_left (fun ns d => <[d.1 := d.2]> ns) (class_body c) ∅.

(** The base classes below [ControllerDecorator]. *)
Definition bases (c : decorator_class) : list decorator_class :=
  match c with
  | route => []
  | path_route | param_route | version => [route]
  end.

(** Attribute lookup on a class along its linearization. *)
Definition class_attr (c : decorator_class) (name : string) : option method_def :=
  (fix look (mro : list decorator_class) : option method_def :=
     match mro with
     | [] => None
     | k :: mro' =>
         match class_namespace k !! name with
         | Some d => Some d
         | None => look mro'
         end
     end) (c :: bases c).

(** [decorator.handle_failure(controller)] on an instance of class [c]. *)
Definition handle_failure (c : decorator_class) (controller : Controller)
    : dresult unit :=
  match class_attr c "handle_failure" with
  | Some (Def_handle_failure f) => f controller
  | _ => DRaise (Base (Exc AttributeError
                   "object has no attribute 'handle_failure'"))
  end.

(** One alternative implementation of an HTTP method: the decorator that
    guards it, its predicate, and the implementation. *)
Record Binding := {
  alternative_name : string;
  decorator : decorator_class;
  predicate : Request -> bool;
  implementation : ControllerMethod
}.

(** Modelled from the spec: the code that tries the alternatives of one
    HTTP method is not part of the sources at hand.  Section 4.5: the
    predicates are evaluated in declaration order, the first that holds
    selects its alternative, and when none holds the configured failure
    action is invoked; by the docstring of [route.handle_failure] that
    action is the [handle_failure] of the first decorator that failed.
    [failure] is the failure action recorded so far; the result is the
    value of the selected alternative, if there is one. *)
Fixpoint select_alternative (controller : Controller)
    (failure : option decorator_class) (bs : list Binding)
    (args : list string) (kwargs : gmap string string)
    : dresult (option string) :=
  match bs with
  | [] =>
      match failure with
      | Some d => _ <-- handle_failure d controller ;; DOk None
      | None => DOk None
      end
  | b :: bs' =>
      if predicate b (ctl_request controller)
      then body <-- implementation b controller args kwargs ;; DOk (Some body)
      else
        let failure :=
          match failure with
          | None => Some (decorator b)
          | Some d => Some d
          end in
        select_alternative controller failure bs' args kwargs
  end.

End Decorators.

(** ** Auxiliary notions used to state the properties *)

(** The dotted name obtained from [name] by appending the segments [segs]. *)
Definition dotted (name : string) (segs : list string) : string :=
  fold_left (fun acc seg => acc +:+ "." +:+ seg) segs name.

(** A sequence of [get_controllers] calls, each with the file system and
    the importable modules of its moment. *)
Fixpoint run_calls (calls : list (Env * string)) (st : pystate) : pystate :=
  match calls with
  | [] => st
  | (env, prefix) :: calls' =>
      run_calls calls' (snd (get_controllers env prefix st))
  end.

(** The [name in cset] test on a cache entry, as a proposition. *)
Definition known (st : pystate) (cset : cache_entry) (name : string) : Prop :=
  contains st cset name = true.

(** The body of the [try] block of [Call.handle]: find the callback, set
    the content type and call the callback.  Returns the value or the
    exception, [self.response] as the block leaves it, and the state. *)
Definition invocation (env : Env) (c : Call)
    : pystate -> result string * Response * pystate :=
  fun st =>
    match get_callback_info env c st with
    | (Raise e, r, st') => (Raise e, r, st')
    | (Ok (callback, callback_args, callback_kwargs), r, st') =>
        let r := set_header "Content-Type" (content_type c) r in
        match callback callback_args callback_kwargs r with
        | (Raise e, r) => (Raise e, r, st')
        | (Ok body, r) => (Ok body, r, st')
        end
    end.

(** A media-type entry carries a version when its [version] parameter is
    present and not empty. *)
Definition carries_version (mt : MediaType) : bool :=
  PyStr.truthy_opt (mt_params mt !! "version").

(** The entries of the Accept header that are compatible with the content
    type [ct]; none when the header is missing or empty. *)
Definition compatible_entries (env : Env) (c : Call) (ct : string) : list MediaType :=
  let header := default "" (req_headers (request c) !! "accept") in
  if PyStr.truthy header then accept_filter env header ct else [].

(** ** Sample applications *)

Module Sample.

(** A method that returns [v] and leaves the response alone. *)
Definition returns (v : string) : Callback := fun _ _ r => (Ok v, r).

(** A method that raises [e] and leaves the response alone. *)
Definition raises (e : exn) : Callback := fun _ _ r => (Raise e, r).

(** A controller class with the given methods. *)
Definition controller (methods : list (string * Callback)) : pyobject :=
  {| is_handler_class := true;
     construct := fun _ r =>
       (Ok {| inst_attrs := list_to_map methods; inst_set_call := Ok tt |}, r) |}.

(** [class Nomodbar(object): pass]: not a controller; calling it with two
    arguments is a [TypeError]. *)
Definition plain_class : pyobject :=
  {| is_handler_class := false;
     construct := fun _ r =>
       (Raise (Exc TypeError "object() takes no parameters"), r) |}.

Definition default_get : pyobject := controller [("GET", returns "ok")].

Definition no_such_module {A} (name : string) : result A :=
  Raise (Exc ImportError ("No module named " +:+ name)).

Definition no_media_types (header content_type : string) : list MediaType := [].

Definition request_for (method : string) (segments : list string) : Request :=
  {| req_method := method;
     req_path := "/" +:+ PyStr.join "/" segments;
     path_args := segments;
     query_kwargs := ∅;
     req_headers := ∅ |}.

Definition fresh_response : Response :=
  {| resp_code := 200; resp_headers := ∅; resp_body := BodyUnset |}.

Definition call_for (prefix method : string) (segments : list string) : Call :=
  {| call_cls := Call_class;
     controller_prefix := prefix;
     content_type := Some "application/json";
     default_version := None;
     request := request_for method segments;
     response := fresh_response |}.

(** Package [R] with sub-package [a] and module [a/b.py]. *)
Definition tree_nested : dirtree :=
  Dir "R" ["__init__.py"] [Dir "a" ["__init__.py"; "b.py"] []].

Definition env_nested : Env :=
  {| import_module := fun name =>
       if String.eqb name "R" then
         Ok {| mod_file := "/srv/R/__init__.py";
               mod_attrs := {[ "Default" := default_get ]} |}
       else if String.eqb name "R.a" then
         Ok {| mod_file := "/srv/R/a/__init__.py";
               mod_attrs := {[ "Default" := default_get ]} |}
       else if String.eqb name "R.a.b" then
         Ok {| mod_file := "/srv/R/a/b.py";
               mod_attrs := {[ "Default" := default_get ]} |}
       else no_such_module name;
     os_walk := fun path =>
       if String.eqb path "/srv/R" then Some tree_nested else None;
     accept_filter := no_media_types |}.

(** Package [R] with a directory [a] that holds [b.py] but no
    [__init__.py]. *)
Definition tree_gap : dirtree :=
  Dir "R" ["__init__.py"] [Dir "a" ["b.py"] []].

Definition env_gap : Env :=
  {| import_module := fun name =>
       if String.eqb name "R" then
         Ok {| mod_file := "/srv/R/__init__.py";
               mod_attrs := {[ "Default" := default_get ]} |}
       else no_such_module name;
     os_walk := fun path =>
       if String.eqb path "/srv/R" then Some tree_gap else None;
     accept_filter := no_media_types |}.

(** Package [R] with a private and a hidden directory and a private
    module file. *)
Definition tree_private : dirtree :=
  Dir "R" ["__init__.py"; "_helpers.py"; "public.py"; "README.txt"]
    [ Dir "_private" ["__init__.py"; "secret.py"] [];
      Dir ".git" ["hook.py"] [] ].

Definition env_private : Env :=
  {| import_module := fun name =>
       if String.eqb name "R" then
         Ok {| mod_file := "/srv/R/__init__.py";
               mod_attrs := {[ "Default" := default_get ]} |}
       else no_such_module name;
     os_walk := fun path =>
       if String.eqb path "/srv/R" then Some tree_private else None;
     accept_filter := no_media_types |}.

(** The module of [test_no_match]: it imports the plain class [Nomodbar]
    and defines the controller [Default]. *)
Definition env_decoy : Env :=
  {| import_module := fun name =>
       if String.eqb name "nomodcontroller" then
         Ok {| mod_file := "/srv/nomodcontroller/__init__.py";
               mod_attrs := {[ "Nomodbar" := plain_class;
                               "Default" := default_get ]} |}
       else no_such_module name;
     os_walk := fun path =>
       if String.eqb path "/srv/nomodcontroller"
       then Some (Dir "nomodcontroller" ["__init__.py"; "nomod.py"] [])
       else None;
     accept_filter := no_media_types |}.

(** An application made of the single package [R] whose [__init__.py]
    binds [attrs]. *)
Definition env_single (attrs : gmap string pyobject) : Env :=
  {| import_module := fun name =>
       if String.eqb name "R" then
         Ok {| mod_file := "/srv/R/__init__.py"; mod_attrs := attrs |}
       else no_such_module name;
     os_walk := fun path =>
       if String.eqb path "/srv/R" then Some (Dir "R" ["__init__.py"] []) else None;
     accept_filter := no_media_types |}.

(** [Default.GET] calls [sys.exit()]. *)
Definition env_exit : Env :=
  env_single {[ "Default" :=
    controller [("GET", raises (Exc SystemExit "0"))] ]}.

(** The constructor of [Default] raises [CallError(404, "gone")]. *)
Definition env_init_404 : Env :=
  env_single {[ "Default" :=
    {| is_handler_class := true;
       construct := fun _ r => (Raise (CallError 404 "gone"), r) |} ]}.

(** The package [R] uses an undefined name at its top level. *)
Definition env_import_boom : Env :=
  {| import_module := fun name =>
       if String.eqb name "R"
       then Raise (Exc NameError "name 'undefined' is not defined")
       else no_such_module name;
     os_walk := fun _ => None;
     accept_filter := no_media_types |}.

(** The modules written by [create_modules] in [tests/call_test.py], under
    the prefix [controller_info_advanced]. *)
Definition get_only : pyobject := controller [("GET", returns "")].

Definition test_modules : gmap string pymodule :=
  {[ "controller_info_advanced" :=
       {| mod_file := "/tmp/controller_info_advanced/__init__.py";
          mod_attrs := {[ "Controller" := controller []; "Default" := get_only ]} |};
     "controller_info_advanced.default" :=
       {| mod_file := "/tmp/controller_info_advanced/default.py";
          mod_attrs := {[ "Controller" := controller []; "Default" := get_only ]} |};
     "controller_info_advanced.foo" :=
       {| mod_file := "/tmp/controller_info_advanced/foo/__init__.py";
          mod_attrs := {[ "Controller" := controller []; "Default" := get_only;
                          "Bar" := controller [("GET", returns ""); ("POST", returns "")] ]} |};
     "controller_info_advanced.foo.baz" :=
       {| mod_file := "/tmp/controller_info_advanced/foo/baz.py";
          mod_attrs := {[ "Controller" := controller []; "Default" := get_only;
                          "Che" := get_only ]} |};
     "controller_info_advanced.foo.boom" :=
       {| mod_file := "/tmp/controller_info_advanced/foo/boom.py";
          mod_attrs := {[ "Controller" := controller []; "Bang" := get_only ]} |} ]}.

Definition env_tests : Env :=
  {| import_module := fun name =>
       match test_modules !! name with
       | Some m => Ok m
       | None => no_such_module name
       end;
     os_walk := fun path =>
       if String.eqb path "/tmp/controller_info_advanced" then
         Some (Dir "controller_info_advanced" ["__init__.py"; "default.py"]
                 [Dir "foo" ["__init__.py"; "baz.py"; "boom.py"] []])
       else None;
     accept_filter := no_media_types |}.

(** What the resolution tests compare: module name, class name and
    positional arguments. *)
Definition resolve (segments : list string)
    : result (string * string * list string) :=
  match get_controller_info env_tests
          (call_for "controller_info_advanced" "GET" segments) initial_state with
  | (Ok d, _) => Ok (module_name d, class_name d, args d)
  | (Raise e, _) => Raise e
  end.

(** A client that asks for version [v1] of the JSON representation. *)
Definition accept_v1 : string := "application/json;version=v1".

Definition env_versions : Env :=
  {| import_module := no_such_module;
     os_walk := fun _ => None;
     accept_filter := fun header content_type =>
       if String.eqb header accept_v1 && String.eqb content_type "application/json"
       then [ {| mt_type := "application"; mt_subtype := "json";
                 mt_params := {[ "version" := "v1" ]} |} ]
       else [] |}.

Definition version_call (accept : option string) (default_version : option string)
    : Call :=
  {| call_cls := VersionCall_class;
     controller_prefix := "R";
     content_type := Some "application/json";
     default_version := default_version;
     request :=
       {| req_method := "GET"; req_path := "/"; path_args := [];
          query_kwargs := ∅;
          req_headers :=
            match accept with
            | Some a => {[ "accept" := a ]}
            | None => ∅
            end |};
     response := fresh_response |}.

(** Two alternatives of [GET], as in the docstring of [route]: one for
    paths of two segments, one for paths of one segment. *)
Definition get_alternatives (d : Decorators.decorator_class)
    : list Decorators.Binding :=
  [ {| Decorators.alternative_name := "GET_1";
       Decorators.decorator := d;
       Decorators.predicate := fun req => Nat.eqb (length (path_args req)) 2;
       Decorators.implementation := fun _ _ _ => Decorators.DOk "one" |};
    {| Decorators.alternative_name := "GET_2";
       Decorators.decorator := d;
       Decorators.predicate := fun req => Nat.eqb (length (path_args req)) 1;
       Decorators.implementation := fun _ _ _ => Decorators.DOk "two" |} ].

Definition controller_for (segments : list string) : Decorators.Controller :=
  {| Decorators.ctl_request := request_for "GET" segments;
     Decorators.ctl_content_type := Some "application/json" |}.

End Sample.

(** ** Further notions used to state properties of the walk and the cache *)

(** Induction on directory trees with the hypothesis for all
    sub-directories. *)
Definition dirtree_forall_ind (P : dirtree -> Prop)
    (step : forall n files subdirs, Forall P subdirs -> P (Dir n files subdirs))
    : forall t, P t :=
  fix go (t : dirtree) : P t :=
    match t with
    | Dir n files subdirs =>
        step n files subdirs
          ((fix all (ds : list dirtree) : Forall P ds :=
              match ds with
              | [] => @List.Forall_nil _ P
              | d :: ds' => @List.Forall_cons _ P d ds' (go d) (all ds')
              end) subdirs)
    end.

(** Every directory of a tree, with the names of the directories that lead
    to it from the directory [rel] stands for, and its files. *)
Fixpoint directories (rel : list string) (t : dirtree)
    : list (list string * list string) :=
  match t with
  | Dir _ files subdirs =>
      (rel, files) ::
      (fix below (ds : list dirtree) : list (list string * list string) :=
         match ds with
         | [] => []
         | d :: ds' => (directories (rel ++ [dir_name d]) d ++ below ds')%list
         end) subdirs
  end.

(** The state is well formed when every cache entry refers to an allocated
    set and no two prefixes share their set. *)
Definition cache_wf (st : pystate) : Prop :=
  (forall p v, module_cache st !! p = Some v ->
     exists l, v = SetRef l /\ l < length (heap st)) /\
  (forall p q l, module_cache st !! p = Some (SetRef l) ->
     module_cache st !! q = Some (SetRef l) -> p = q).

(** Some [.py] file of one of the directories [ds] gives the identifier
    [name] under the prefix [p]: a file whose name starts with [__init__]
    gives the dotted name of its directory, any other file whose name does
    not start with an underscore gives that name extended by the file name
    without its extension. *)
Definition found_in (p name : string) (ds : list (list string * list string))
    : Prop :=
  exists rel files f,
    In (rel, files) ds /\
    In f files /\ PyStr.endswith f ".py" = true /\
    ((PyStr.startswith f "__init__" = true /\
      name = PyStr.join "." (p :: rel)) \/
     (PyStr.startswith f "_" = false /\
      name = PyStr.join "." (p :: rel ++ [PyStr.splitext_root f]))).

(** ** [path_route] and [param_route] *)

Module Routes.
Import Decorators.

(** [path_route.decorate]: [self.paths = paths], then the decoration of the
    base class with [target=self.target], which for this class is
    [path_route.target]. *)
Definition path_route_decorate (env : DecEnv) (self : DecoratorInstance)
    (func : ControllerMethod) (paths : list string) : installed :=
  let self := <["paths" := VStrings paths]> self in
  ByTarget func path_route_target self.

(** A value given to [param_route] as a keyword argument. *)
Inductive match_value :=
  | MStr (s : string)
  | MInt (z : Z)
  | MBool (b : bool).

(** [a != b] on these values: strings, integers and booleans compare by
    value, a boolean being equal to the integer [1] or [0]. *)
Definition py_ne (a b : match_value) : bool :=
  match a, b with
  | MStr s1, MStr s2 => negb (String.eqb s1 s2)
  | MInt z1, MInt z2 => negb (Z.eqb z1 z2)
  | MBool b1, MBool b2 => negb (Bool.eqb b1 b2)
  | MInt z, MBool b | MBool b, MInt z => negb (Z.eqb z (if b then 1 else 0))
  | _, _ => true
  end.

(** [isinstance(e, KeyError)] *)
Definition is_KeyError (e : dexn) : bool :=
  match e with
  | Base (Exc KeyError _) => true
  | _ => false
  end.

(** The first loop of [param_route.target]: every key must be among the
    keyword arguments. *)
Fixpoint keys_loop (method_kwargs : gmap string string) (keys : list string)
    : bool :=
  match keys with
  | [] => true
  | k :: keys' =>
      if negb (bool_decide (is_Some (method_kwargs !! k))) then false
      else keys_loop method_kwargs keys'
  end.

(** The second loop of [param_route.target], over [self.matches.items()] in
    the order the dictionary gives them.  [convert v x] stands for
    [type(v)(x)]; a [KeyError], from the lookup or from the conversion, makes
    the route fail, any other exception leaves the loop. *)
Fixpoint matches_loop (convert : match_value -> string -> dresult match_value)
    (method_kwargs : gmap string string) (matches : list (string * match_value))
    : dresult bool :=
  match matches with
  | [] => DOk true
  | (k, v) :: matches' =>
      match method_kwargs !! k with
      | None => DOk false                                  (* KeyError *)
      | Some x =>
          match convert v x with
          | DOk w =>
              if py_ne w v then DOk false
              else matches_loop convert method_kwargs matches'
          | DRaise e => if is_KeyError e then DOk false else DRaise e
          end
      end
  end.

(** [param_route.target], with [self.keys], [self.matches] and the
    [method_kwargs] of the request's controller info. *)
Definition param_route_target
    (convert : match_value -> string -> dresult match_value)
    (method_kwargs : gmap string string) (keys : list string)
    (matches : list (string * match_value)) : dresult bool :=
  let ret := keys_loop method_kwargs keys in
  if ret then matches_loop convert method_kwargs matches else DOk ret.

End Routes.

(** ** The [request] and [response] properties of [Call] *)

(** The instance attributes [_request] and [_response], each absent until
    it is set. *)
Record CallAttrs := {
  _request : option Request;
  _response : option Response
}.

(** The getter of [Call.request]: [Request()] is built, and kept, when the
    instance has no [_request] yet.  [new_request] is what [Request()]
    returns. *)
Definition request_get (new_request : Request) (self : CallAttrs)
    : Request * CallAttrs :=
  match _request self with
  | Some v => (v, self)
  | None =>
      (new_request, {| _request := Some new_request; _response := _response self |})
  end.

(** The setter of [Call.request]. *)
Definition request_set (v : Request) (self : CallAttrs) : CallAttrs :=
  {| _request := Some v; _response := _response self |}.

(** The getter of [Call.response]. *)
Definition response_get (new_response : Response) (self : CallAttrs)
    : Response * CallAttrs :=
  match _response self with
  | Some v => (v, self)
  | None =>
      (new_response, {| _request := _request self; _response := Some new_response |})
  end.

(** The setter of [Call.response]. *)
Definition response_set (v : Response) (self : CallAttrs) : CallAttrs :=
  {| _request := _request self; _response := Some v |}.

(** ** Sample routes *)

Module SampleRoutes.
Import Decorators Routes.

(** A framework in which paths are already normalized and the method
    arguments are the path segments of the request. *)
Definition dec_env : DecEnv :=
  {| request_version := fun _ _ => "";
     normalize_paths := fun paths => paths;
     method_args := path_args |}.

(** [type(v)(x)] for a string argument [x]: [unicode(x)] is [x]; [int(x)]
    is given for the two numerals the samples use and fails otherwise. *)
Definition convert (v : match_value) (x : string) : dresult match_value :=
  match v with
  | MStr _ => DOk (MStr x)
  | MInt _ =>
      if String.eqb x "1" then DOk (MInt 1)
      else if String.eqb x "2" then DOk (MInt 2)
      else DRaise (Base (Exc ValueError "invalid literal for int() with base 10"))
  | MBool _ => DOk (MBool (PyStr.truthy x))
  end.

End SampleRoutes.

(** The call [c] for the same request sent with the HTTP method
    [method]. *)
Definition with_method (method : string) (c : Call) : Call :=
  {| call_cls := call_cls c;
     controller_prefix := controller_prefix c;
     content_type := content_type c;
     default_version := default_version c;
     request :=
       {| req_method := method;
          req_path := req_path (request c);
          path_args := path_args (request c);
          query_kwargs := query_kwargs (request c);
          req_headers := req_headers (request c) |};
     response := response c |}.

(** A package [R] whose [Default.GET] raises [CallError(401, "denied")]. *)
Definition env_denied : Env :=
  Sample.env_single {[ "Default" :=
    Sample.controller [("GET", Sample.raises (CallError 401 "denied"))] ]}.

(** Package [R] with sub-package [a], the private module [a/_b.py] and,
    at the top, a file named [a._b.py]. *)
Definition tree_dotted : dirtree :=
  Dir "R" ["__init__.py"; "a._b.py"] [Dir "a" ["__init__.py"; "_b.py"] []].

Definition env_dotted : Env :=
  {| import_module := fun name =>
       if String.eqb name "R" then
         Ok {| mod_file := "/srv/R/__init__.py";
               mod_attrs := {[ "Default" := Sample.default_get ]} |}
       else if String.eqb name "R.a" then
         Ok {| mod_file := "/srv/R/a/__init__.py";
               mod_attrs := {[ "Default" := Sample.default_get ]} |}
       else if String.eqb name "R.a._b" then
         Ok {| mod_file := "/srv/R/a/_b.py";
               mod_attrs := {[ "Default" := Sample.default_get ]} |}
       else Sample.no_such_module name;
     os_walk := fun path =>
       if String.eqb path "/srv/R" then Some tree_dotted else None;
     accept_filter := Sample.no_media_types |}.

(** A package [R] whose [Default] writes to the response: its constructor
    sets a header, its [POST] sets the status code to 201. *)
Definition env_writer : Env :=
  Sample.env_single {[ "Default" :=
    {| is_handler_class := true;
       construct := fun _ r =>
         (Ok {| inst_attrs :=
                  {[ "POST" := fun _ _ r => (Ok "made", set_code 201 r) ]};
                inst_set_call := Ok tt |},
          set_header "Access-Control-Allow-Origin" (Some "*") r) |} ]}.

(** * Properties *)

(** ** Module discovery *)

(** The comprehension that should prune hidden and private directories keeps
    every directory: no first character differs from both [.] and [_]. *)
Lemma keep_dir_always (d : string) : keep_dir d = true.
Proof.
  unfold keep_dir, first_char_is.
  destruct d as [|c d]; [reflexivity|].
  destruct (Ascii.eqb_spec c "."%char) as [->|]; reflexivity.
Qed.

(** A file whose name starts with an underscore adds nothing to the set,
    unless its name starts with [__init__]. *)
Lemma add_file_private (module_name : list string) (modules : gset string)
    (f : string) :
  PyStr.startswith f "_" = true ->
  PyStr.startswith f "__init__" = false ->
  add_file module_name modules f = modules.
Proof.
  intros Hp Hi. unfold add_file. rewrite Hi, Hp. reflexivity.
Qed.

(** [get_controllers] on a prefix that is already cached. *)
Lemma get_controllers_hit (env : Env) (p : string) (st : pystate) (v : cache_entry) :
  p <> "" ->
  module_cache st !! p = Some v ->
  get_controllers env p st = (Ok v, st).
Proof.
  intros Hp Hc. unfold get_controllers.
  destruct p as [|c p]; [congruence|]. simpl. rewrite Hc. reflexivity.
Qed.

(** A successful call leaves its result in the cache under the prefix. *)
Lemma get_controllers_stores (env : Env) (p : string) (st st' : pystate)
    (v : cache_entry) :
  get_controllers env p st = (Ok v, st') ->
  module_cache st' !! p = Some v.
Proof.
  unfold get_controllers.
  destruct (negb (PyStr.truthy p)); [discriminate|].
  destruct (module_cache st !! p) as [cached|] eqn:Hc.
  - intros [= <- <-]. exact Hc.
  - destruct (import_module env p) as [m|e]; [|discriminate].
    intros [= <- <-]. simpl. apply lookup_insert_eq.
Qed.

(** No call changes an existing cache entry, nor a set that is already
    allocated. *)
Lemma get_controllers_preserves (env : Env) (q : string) (st : pystate) :
  let st' := snd (get_controllers env q st) in
  (forall p v, module_cache st !! p = Some v -> module_cache st' !! p = Some v) /\
  (forall l s, heap st !! l = Some s -> heap st' !! l = Some s).
Proof.
  unfold get_controllers.
  destruct (negb (PyStr.truthy q)); [simpl; auto|].
  destruct (module_cache st !! q) as [cached|] eqn:Hc; [simpl; auto|].
  destruct (import_module env q) as [m|e]; [|simpl; auto].
  simpl. split.
  - intros p v Hp.
    assert (q <> p) by (intros ->; congruence).
    rewrite lookup_insert_ne by assumption.
    unfold setdefault. rewrite Hc.
    rewrite lookup_insert_ne by assumption. exact Hp.
  - intros l s Hl. apply lookup_app_l_Some. exact Hl.
Qed.

Lemma run_calls_preserves (calls : list (Env * string)) (st : pystate) :
  (forall p v, module_cache st !! p = Some v ->
               module_cache (run_calls calls st) !! p = Some v) /\
  (forall l s, heap st !! l = Some s -> heap (run_calls calls st) !! l = Some s).
Proof.
  revert st. induction calls as [|[env q] calls IH]; intros st; simpl.
  - auto.
  - destruct (get_controllers_preserves env q st) as [Hc Hh].
    destruct (IH (snd (get_controllers env q st))) as [IHc IHh].
    split; eauto.
Qed.

(** The set that the walk builds for a prefix whose module is [m]. *)
Lemma get_controllers_first (env : Env) (p : string) (st : pystate) (m : pymodule) :
  p <> "" ->
  module_cache st !! p = None ->
  import_module env p = Ok m ->
  exists st1,
    get_controllers env p st = (Ok (SetRef (length (heap st))), st1) /\
    heap st1 !! length (heap st) =
      Some (match os_walk env (PyStr.dirname (mod_file m)) with
            | Some t => walk p [] t ∅
            | None => ∅
            end).
Proof.
  intros Hp Hc Hm. unfold get_controllers.
  destruct p as [|a p]; [congruence|]. simpl. rewrite Hc, Hm.
  eexists. split; [reflexivity|]. simpl.
  rewrite lookup_app_r by lia. rewrite Nat.sub_diag. reflexivity.
Qed.

(** C9. For a non-empty prefix that is not cached yet and whose module can
    be imported, [get_controllers] returns a new set object holding the
    walked modules and stores it in the cache under the prefix.  After any
    further calls, on any prefixes, in any order and whatever the file
    system has become, a call on the same prefix returns the very same
    object, does not change the state (nothing is walked or allocated), and
    the object is unchanged. *)
Theorem get_controllers_cached (env : Env) (p : string) (st : pystate)
    (m : pymodule) :
  p <> "" ->
  module_cache st !! p = None ->
  import_module env p = Ok m ->
  exists l st1,
    get_controllers env p st = (Ok (SetRef l), st1) /\
    module_cache st1 !! p = Some (SetRef l) /\
    heap st1 !! l =
      Some (match os_walk env (PyStr.dirname (mod_file m)) with
            | Some t => walk p [] t ∅
            | None => ∅
            end) /\
    forall (calls : list (Env * string)) (env' : Env),
      let st2 := run_calls calls st1 in
      get_controllers env' p st2 = (Ok (SetRef l), st2) /\
      heap st2 !! l = heap st1 !! l.
Proof.
  intros Hp Hnone Hm.
  destruct (get_controllers_first env p st m Hp Hnone Hm) as (st1 & Hcall & Hheap).
  exists (length (heap st)), st1.
  pose proof (get_controllers_stores _ _ _ _ _ Hcall) as Hstored.
  repeat split; try assumption.
  - destruct (run_calls_preserves calls st1) as [Hc _].
    apply get_controllers_hit; auto.
  - destruct (run_calls_preserves calls st1) as [_ Hh].
    rewrite Hheap. apply Hh. exact Hheap.
Qed.

Lemma get_controllers_cached_witness :
  "R" <> "" /\
  module_cache initial_state !! "R" = None /\
  exists l st1,
    get_controllers Sample.env_nested "R" initial_state = (Ok (SetRef l), st1) /\
    module_cache st1 !! "R" = Some (SetRef l) /\
    heap st1 !! l = Some ({[ "R"; "R.a"; "R.a.b" ]} : gset string) /\
    forall (calls : list (Env * string)) (env' : Env),
      let st2 := run_calls calls st1 in
      get_controllers env' "R" st2 = (Ok (SetRef l), st2) /\
      heap st2 !! l = heap st1 !! l.
Proof.
  split; [discriminate|]. split; [reflexivity|].
  destruct (get_controllers_cached Sample.env_nested "R" initial_state
              {| mod_file := "/srv/R/__init__.py";
                 mod_attrs := {[ "Default" := Sample.default_get ]} |}
              ltac:(discriminate) eq_refl eq_refl)
    as (l & st1 & Hcall & Hstored & Hheap & Hlater).
  exists l, st1.
  split; [exact Hcall|]. split; [exact Hstored|]. split; [|exact Hlater].
  rewrite Hheap. vm_compute. reflexivity.
Defined.

(** C6 (what the code does). With a private directory [_private] and a
    hidden directory [.git] under the package, the set returned by
    [get_controllers] holds the identifiers derived from them: the walk
    prunes no directory.  Only the private module file [_helpers.py] is left
    out. *)
Theorem get_controllers_keeps_private_dirs :
  (forall d, keep_dir d = true) /\
  exists st',
    get_controllers Sample.env_private "R" initial_state = (Ok (SetRef 0), st') /\
    heap st' !! 0 =
      Some ({[ "R"; "R.public"; "R._private"; "R._private.secret"; "R..git.hook" ]}
              : gset string).
Proof.
  split; [exact keep_dir_always|].
  eexists. split; vm_compute; reflexivity.
Qed.

(** ** Advanced controller resolution *)

(** The module walk consumes a number [k] of leading segments: every
    extension by up to [k] segments is in the set, and the extension by one
    more segment, if there is one, is not. *)
Lemma module_walk_spec (in_cset : string -> bool) (prefix : string)
    (path : list string) :
  exists k,
    k <= length path /\
    module_walk in_cset prefix prefix path = (dotted prefix (take k path), drop k path) /\
    (forall j, 1 <= j <= k -> in_cset (dotted prefix (take j path)) = true) /\
    (k < length path -> in_cset (dotted prefix (take (S k) path)) = false).
Proof.
  revert prefix. induction path as [|p0 rest IH]; intros prefix.
  - exists 0. simpl. repeat split; [lia | intros j Hj; lia | lia].
  - simpl module_walk.
    destruct (in_cset (prefix +:+ "." +:+ p0)) eqn:Hin.
    + destruct (IH (prefix +:+ "." +:+ p0)) as (k & Hk & Hw & Hall & Hstop).
      exists (S k). simpl. repeat split.
      * lia.
      * exact Hw.
      * intros [|j] Hj; [lia|]. simpl.
        destruct j as [|j]; [exact Hin|].
        apply (Hall (S j)). lia.
      * intros Hlt. apply Hstop. lia.
    + exists 0. simpl. repeat split; [lia | intros j Hj; lia |].
      intros _. exact Hin.
Qed.

(** The number of consumed segments is the largest with that property. *)
Lemma chain_unique (in_cset : string -> bool) (prefix : string)
    (path : list string) (k k' : nat) :
  k <= length path -> k' <= length path ->
  (forall j, 1 <= j <= k -> in_cset (dotted prefix (take j path)) = true) ->
  (k < length path -> in_cset (dotted prefix (take (S k) path)) = false) ->
  (forall j, 1 <= j <= k' -> in_cset (dotted prefix (take j path)) = true) ->
  k' <= k.
Proof.
  intros Hk Hk' Hall Hstop Hall'.
  destruct (le_lt_dec k' k) as [|Hlt]; [assumption|].
  assert (in_cset (dotted prefix (take (S k) path)) = true) as Ht
    by (apply Hall'; lia).
  rewrite Hstop in Ht by lia. discriminate.
Qed.

(** What the class block does with the segments left by the module walk. *)
Lemma class_pick_spec (m : pymodule) (path : list string) :
  (class_pick m path = ("Default", path) /\
   forall seg, path !! 0 = Some seg -> hasattr m (PyStr.capitalize seg) = false) \/
  (exists seg, path !! 0 = Some seg /\
     hasattr m (PyStr.capitalize seg) = true /\
     class_pick m path = (PyStr.capitalize seg, drop 1 path)).
Proof.
  destruct path as [|p0 rest]; simpl.
  - left. split; [reflexivity | intros seg [=]].
  - destruct (hasattr m (PyStr.capitalize p0)) eqn:Hh.
    + right. exists p0. rewrite Hh. auto.
    + left. split; [reflexivity|]. intros seg [= <-]. exact Hh.
Qed.

(** Inversion of a successful advanced resolution into its steps. *)
Lemma advanced_inv (env : Env) (c : Call) (st st' : pystate) (d : ControllerInfo) :
  get_controller_info_advanced env c st = (Ok d, st') ->
  exists prefix cset,
    get_normalized_prefix env c = Ok prefix /\
    get_controllers env prefix st = (Ok cset, st') /\
    let walked := module_walk (contains st' cset) prefix prefix
                    (path_args (request c)) in
    let picked := class_pick (module d) walked.2 in
    module_name d = walked.1 /\
    import_module env walked.1 = Ok (module d) /\
    class_name d = picked.1 /\
    getattr (module d) picked.1 = Ok (class d) /\
    args d = picked.2 /\
    kwargs d = query_kwargs (request c) /\
    method d = PyStr.upper (req_method (request c)).
Proof.
  unfold get_controller_info_advanced, bind, lift, get_state, ret.
  destruct (get_normalized_prefix env c) as [prefix|e]; [|discriminate].
  destruct (get_controllers env prefix st) as [[cset|e] st1] eqn:Hgc; [|discriminate].
  destruct (module_walk (contains st1 cset) prefix prefix (path_args (request c)))
    as [mname rest] eqn:Hw.
  destruct (import_module env mname) as [m|e] eqn:Him; [|discriminate].
  destruct (class_pick m rest) as [cname rest'] eqn:Hp.
  destruct (getattr m cname) as [cls|e] eqn:Hga; [|discriminate].
  intros [= <- <-]. exists prefix, cset. simpl.
  rewrite Hw. simpl. rewrite Hp. simpl. auto 10.
Qed.

(** The shape of every successful advanced resolution, in terms of the
    number [k] of path segments consumed by the module walk. *)
Lemma advanced_shape (env : Env) (c : Call) (st st' : pystate) (d : ControllerInfo) :
  get_controller_info_advanced env c st = (Ok d, st') ->
  let path := path_args (request c) in
  exists prefix cset k,
    get_normalized_prefix env c = Ok prefix /\
    get_controllers env prefix st = (Ok cset, st') /\
    k <= length path /\
    module_name d = dotted prefix (take k path) /\
    (forall j, 1 <= j <= k -> known st' cset (dotted prefix (take j path))) /\
    (k < length path -> ~ known st' cset (dotted prefix (take (S k) path))) /\
    import_module env (module_name d) = Ok (module d) /\
    ((class_name d = "Default" /\ args d = drop k path /\
      forall seg, path !! k = Some seg ->
                  hasattr (module d) (PyStr.capitalize seg) = false) \/
     (exists seg, path !! k = Some seg /\
        class_name d = PyStr.capitalize seg /\
        hasattr (module d) (PyStr.capitalize seg) = true /\
        args d = drop (S k) path)) /\
    kwargs d = query_kwargs (request c).
Proof.
  intros H path.
  destruct (advanced_inv _ _ _ _ _ H)
    as (prefix & cset & Hp & Hgc & Hmn & Him & Hcn & _ & Hargs & Hkw & _).
  fold path in Hmn, Him, Hcn, Hargs.
  destruct (module_walk_spec (contains st' cset) prefix path)
    as (k & Hk & Hw & Hall & Hstop).
  rewrite Hw in Hmn, Him, Hcn, Hargs. simpl in Hmn, Him, Hcn, Hargs.
  exists prefix, cset, k. repeat split; try assumption.
  - intros Hlt. unfold known. rewrite (Hstop Hlt). discriminate.
  - rewrite Hmn. exact Him.
  - destruct (class_pick_spec (module d) (drop k path))
      as [[Hpick Hno] | (seg & Hseg & Hyes & Hpick)];
      rewrite Hpick in Hcn, Hargs; simpl in Hcn, Hargs.
    + left. repeat split; try assumption.
      intros seg Hseg. apply Hno. rewrite lookup_drop, Nat.add_0_r. exact Hseg.
    + right. exists seg. rewrite lookup_drop, Nat.add_0_r in Hseg.
      rewrite drop_drop in Hargs. replace (k + 1) with (S k) in Hargs by lia.
      auto.
Qed.

(** C1 (amended). Advanced resolution extends the dotted module name by one
    path segment at a time while the extended name is in the controller
    set: the selected module is the prefix extended by the first [k]
    segments, where every extension by [1..k] segments is in the set, the
    extension by [k+1] segments is not, and no longer run of leading
    segments has all its extensions in the set.  For the path [/a/b/c], when
    [R.a] and [R.a.b] are in the set and [R.a.b.c] is not, the module is
    [R.a.b].  The segments not consumed as module or class name are the
    positional arguments, in order, and the query parameters are the keyword
    arguments. *)
Theorem advanced_resolution_greedy (env : Env) (c : Call) (st st' : pystate)
    (d : ControllerInfo) :
  get_controller_info_advanced env c st = (Ok d, st') ->
  let path := path_args (request c) in
  exists prefix cset k,
    get_normalized_prefix env c = Ok prefix /\
    get_controllers env prefix st = (Ok cset, st') /\
    k <= length path /\
    module_name d = dotted prefix (take k path) /\
    (forall j, 1 <= j <= k -> known st' cset (dotted prefix (take j path))) /\
    (k < length path -> ~ known st' cset (dotted prefix (take (S k) path))) /\
    (forall k', k' <= length path ->
       (forall j, 1 <= j <= k' -> known st' cset (dotted prefix (take j path))) ->
       k' <= k) /\
    (forall a b c',
       path = [a; b; c'] ->
       known st' cset (dotted prefix [a]) ->
       known st' cset (dotted prefix [a; b]) ->
       ~ known st' cset (dotted prefix [a; b; c']) ->
       module_name d = dotted prefix [a; b]) /\
    ((class_name d = "Default" /\ args d = drop k path) \/
     (exists seg, path !! k = Some seg /\
        class_name d = PyStr.capitalize seg /\ args d = drop (S k) path)) /\
    kwargs d = query_kwargs (request c).
Proof.
  intros H path.
  destruct (advanced_shape _ _ _ _ _ H)
    as (prefix & cset & k & Hp & Hgc & Hk & Hmn & Hall & Hstop & _ & Hcls & Hkw).
  fold path in Hk, Hmn, Hall, Hstop, Hcls.
  assert (forall k', k' <= length path ->
            (forall j, 1 <= j <= k' -> known st' cset (dotted prefix (take j path))) ->
            k' <= k) as Hmax.
  { intros k' Hk' Hall'.
    apply (chain_unique (contains st' cset) prefix path k k'); try assumption.
    intros Hlt. specialize (Hstop Hlt). unfold known in Hstop.
    destruct (contains st' cset (dotted prefix (take (S k) path)));
      [contradiction Hstop; reflexivity | reflexivity]. }
  exists prefix, cset, k. repeat split; try assumption.
  - intros a b c' Hpath Ha Hb Hc.
    rewrite Hpath in Hk, Hmn, Hall, Hstop, Hmax. simpl in Hk.
    assert (2 <= k) as Hge.
    { apply Hmax; [simpl; lia|].
      intros [|[|[|j]]] Hj; try lia; simpl; assumption. }
    assert (k = 2) as ->.
    { destruct (Nat.eq_dec k 3) as [->|]; [|lia].
      exfalso. apply Hc. apply (Hall 3). lia. }
    exact Hmn.
  - destruct Hcls as [(Hc & Ha & _) | (seg & Hs & Hc & _ & Ha)].
    + left. auto.
    + right. exists seg. auto.
Qed.

Lemma advanced_resolution_greedy_witness :
  exists d st',
    get_controller_info_advanced Sample.env_nested
      (Sample.call_for "R" "GET" ["a"; "b"; "c"]) initial_state = (Ok d, st') /\
    module_name d = "R.a.b" /\
    class_name d = "Default" /\
    args d = ["c"] /\
    exists prefix cset k,
      get_normalized_prefix Sample.env_nested
        (Sample.call_for "R" "GET" ["a"; "b"; "c"]) = Ok prefix /\
      get_controllers Sample.env_nested prefix initial_state = (Ok cset, st') /\
      k <= 3 /\
      module_name d = dotted prefix (take k ["a"; "b"; "c"]) /\
      (forall j, 1 <= j <= k ->
         known st' cset (dotted prefix (take j ["a"; "b"; "c"]))) /\
      (k < 3 -> ~ known st' cset (dotted prefix (take (S k) ["a"; "b"; "c"]))) /\
      (forall k', k' <= 3 ->
         (forall j, 1 <= j <= k' ->
            known st' cset (dotted prefix (take j ["a"; "b"; "c"]))) ->
         k' <= k) /\
      (forall a b c',
         ["a"; "b"; "c"] = [a; b; c'] ->
         known st' cset (dotted prefix [a]) ->
         known st' cset (dotted prefix [a; b]) ->
         ~ known st' cset (dotted prefix [a; b; c']) ->
         module_name d = dotted prefix [a; b]) /\
      ((class_name d = "Default" /\ args d = drop k ["a"; "b"; "c"]) \/
       (exists seg, ["a"; "b"; "c"] !! k = Some seg /\
          class_name d = PyStr.capitalize seg /\
          args d = drop (S k) ["a"; "b"; "c"])) /\
      kwargs d = ∅.
Proof.
  eexists _, _. split; [vm_compute; reflexivity|].
  split; [vm_compute; reflexivity|].
  split; [vm_compute; reflexivity|].
  split; [vm_compute; reflexivity|].
  apply (advanced_resolution_greedy Sample.env_nested
           (Sample.call_for "R" "GET" ["a"; "b"; "c"]) initial_state).
  vm_compute; reflexivity.
Defined.

(** C1 (as stated, refuted). The directory [a] holds [b.py] but no
    [__init__.py], so the controller set is [{R, R.a.b}]: [R.a.b] is in the set
    and [R.a.b.c] is not, yet for the path [/a/b/c] the walk stops at [R.a],
    which is not in the set, and the module selected is [R]. *)
Lemma longest_prefix_counterexample :
  exists d st',
    get_controller_info_advanced Sample.env_gap
      (Sample.call_for "R" "GET" ["a"; "b"; "c"]) initial_state = (Ok d, st') /\
    heap st' !! 0 = Some ({[ "R"; "R.a.b" ]} : gset string) /\
    contains st' (SetRef 0) "R.a.b" = true /\
    contains st' (SetRef 0) "R.a.b.c" = false /\
    module_name d = "R" /\
    module_name d <> "R.a.b" /\
    class_name d = "Default" /\
    args d = ["a"; "b"; "c"].
Proof.
  eexists _, _. split; [vm_compute; reflexivity|].
  repeat split; try (vm_compute; reflexivity).
  vm_compute. discriminate.
Qed.

(** The class block looks at the name only: whatever object the module binds
    to the capitalized segment is taken as the class. *)
Lemma class_pick_any_attribute (m : pymodule) (seg : string) (rest : list string)
    (o : pyobject) :
  mod_attrs m !! PyStr.capitalize seg = Some o ->
  class_pick m (seg :: rest) = (PyStr.capitalize seg, rest).
Proof.
  intros Ho. unfold class_pick, hasattr.
  rewrite bool_decide_eq_true_2; [reflexivity|].
  rewrite Ho. eauto.
Qed.

(** C4 (what the code does). The module [nomodcontroller] imports the plain
    class [Nomodbar] and defines the controller [Default].  For the path
    [/nomodbar] advanced resolution selects [Nomodbar], which is not a
    handler class, as the class and passes no positional argument; the
    request then ends as a 500 since the class cannot be instantiated. *)
Theorem decoy_selected_as_class :
  exists d st' r,
    get_controller_info_advanced Sample.env_decoy
      (Sample.call_for "nomodcontroller" "GET" ["nomodbar"]) initial_state
      = (Ok d, st') /\
    module_name d = "nomodcontroller" /\
    class_name d = "Nomodbar" /\
    is_handler_class (class d) = false /\
    args d = [] /\
    handle Sample.env_decoy
      (Sample.call_for "nomodcontroller" "GET" ["nomodbar"]) initial_state
      = (Ok r, st') /\
    resp_code r = 500%Z.
Proof.
  eexists _, _, _.
  split; [vm_compute; reflexivity|].
  repeat split; vm_compute; reflexivity.
Qed.

(** C5 (amended). In simple resolution a first path segment that begins with
    an underscore is rejected with a [ValueError], whatever the modules and
    the file system are: nothing is imported or walked before.  A
    [ValueError] is not of a class ([ImportError], [AttributeError]) that
    [get_callback_info] turns into a 404. *)
Theorem simple_rejects_private_segment (env : Env) (c : Call) (seg : string)
    (rest : list string) :
  path_args (request c) = seg :: rest ->
  PyStr.startswith seg "_" = true ->
  get_controller_info_simple env c = Raise (Exc ValueError (seg +:+ " is an invalid")) /\
  is_ImportError_or_AttributeError (Exc ValueError (seg +:+ " is an invalid")) = false.
Proof.
  intros Hpath Hseg. unfold get_controller_info_simple.
  rewrite Hpath, Hseg. split; reflexivity.
Qed.

Lemma simple_rejects_private_segment_witness :
  get_controller_info_simple Sample.env_nested
    (Sample.call_for "R" "GET" ["_private"; "x"])
    = Raise (Exc ValueError "_private is an invalid") /\
  is_ImportError_or_AttributeError (Exc ValueError "_private is an invalid") = false.
Proof.
  apply (simple_rejects_private_segment Sample.env_nested
           (Sample.call_for "R" "GET" ["_private"; "x"]) "_private" ["x"]);
    reflexivity.
Defined.

(** C5 (as stated, refuted). [get_controller_info] is the advanced
    resolution, which has no underscore check: the request [GET /_private]
    resolves to the class [Default] of the root module with [_private] as
    positional argument, and [handle] answers it with the controller's
    value and the code left at 200. *)
Lemma private_segment_counterexample :
  PyStr.startswith "_private" "_" = true /\
  exists d st' r,
    get_controller_info Sample.env_nested
      (Sample.call_for "R" "GET" ["_private"]) initial_state = (Ok d, st') /\
    module_name d = "R" /\
    class_name d = "Default" /\
    args d = ["_private"] /\
    handle Sample.env_nested
      (Sample.call_for "R" "GET" ["_private"]) initial_state = (Ok r, st') /\
    resp_code r = 200%Z /\
    resp_body r = BodyValue "ok".
Proof.
  split; [reflexivity|].
  eexists _, _, _.
  split; [vm_compute; reflexivity|].
  repeat split; vm_compute; reflexivity.
Qed.

(** The cases of [test_get_controller_info] and [test_controllers] in
    [tests/call_test.py], run on the embedding. *)
Example test_controllers :
  exists st',
    get_controllers Sample.env_tests "controller_info_advanced" initial_state
      = (Ok (SetRef 0), st') /\
    heap st' !! 0 =
      Some ({[ "controller_info_advanced"; "controller_info_advanced.default";
               "controller_info_advanced.foo"; "controller_info_advanced.foo.baz";
               "controller_info_advanced.foo.boom" ]} : gset string).
Proof. eexists. split; vm_compute; reflexivity. Qed.

Example test_get_controller_info :
  Sample.resolve ["foo"; "bar"; "happy"; "sad"]
    = Ok ("controller_info_advanced.foo", "Bar", ["happy"; "sad"]) /\
  Sample.resolve [] = Ok ("controller_info_advanced", "Default", []) /\
  Sample.resolve ["happy"] = Ok ("controller_info_advanced", "Default", ["happy"]) /\
  Sample.resolve ["foo"; "baz"]
    = Ok ("controller_info_advanced.foo.baz", "Default", []) /\
  Sample.resolve ["foo"; "baz"; "che"]
    = Ok ("controller_info_advanced.foo.baz", "Che", []) /\
  Sample.resolve ["foo"; "baz"; "happy"]
    = Ok ("controller_info_advanced.foo.baz", "Default", ["happy"]) /\
  Sample.resolve ["foo"; "happy"]
    = Ok ("controller_info_advanced.foo", "Default", ["happy"]).
Proof. repeat split; vm_compute; reflexivity. Qed.

(** [test_handle_404_typeerror]: [/foo/boom] names a module without a
    [Default] class, which ends as a 404. *)
Example test_handle_404 :
  exists r st',
    handle Sample.env_tests
      (Sample.call_for "controller_info_advanced" "GET" ["foo"; "boom"])
      initial_state = (Ok r, st') /\
    resp_code r = 404%Z.
Proof. eexists _, _. split; vm_compute; reflexivity. Qed.

(** ** Callback lookup and [Call.handle] *)

(** What [get_callback_info] does with an exception of the gathering: the
    controller has not run, the response is as it was. *)
Lemma get_callback_info_gather_raises (env : Env) (c : Call) (st st' : pystate)
    (e : exn) :
  get_controller_info env c st = (Raise e, st') ->
  get_callback_info env c st =
    (Raise (if is_ImportError_or_AttributeError e
            then CallError 404 (not_found_message (request c) e)
            else e), response c, st').
Proof.
  intros H. unfold get_callback_info, try_except, raise. rewrite H.
  destruct (is_ImportError_or_AttributeError e); reflexivity.
Qed.

(** What [get_callback_info] does once the gathering has succeeded. *)
Lemma get_callback_info_gather_ok (env : Env) (c : Call) (st st' : pystate)
    (d : ControllerInfo) :
  get_controller_info env c st = (Ok d, st') ->
  get_callback_info env c st =
    (match (instantiate c d).1 with
     | Ok callback => Ok (callback, args d, kwargs d)
     | Raise e =>
         Raise (if is_AttributeError e
                then CallError 405 (not_supported_message (request c))
                else e)
     end, (instantiate c d).2, st').
Proof.
  intros H. unfold get_callback_info, try_except. rewrite H.
  destruct (instantiate c d) as [[cb|e] r]; [reflexivity|]. simpl.
  destruct (is_AttributeError e); reflexivity.
Qed.

(** C3 (amended). [get_callback_info] turns into a 404 exactly the
    [ImportError] and [AttributeError] failures of the gathering of the
    controller info, and lets every other exception of the gathering through
    unchanged.  When module and class resolve and the instance has no
    attribute named after the upper-case HTTP method, it fails with a 405;
    of the exceptions raised while the instance is built it turns the
    [AttributeError]s into a 405 and passes every other one on as it is.
    The only other way it fails with a 404 is therefore a [CallError] with
    that code raised by the imported code or by the construction of the
    controller. *)
Theorem get_callback_info_codes (env : Env) (c : Call) (st : pystate) :
  (forall e st',
     get_controller_info env c st = (Raise e, st') ->
     is_ImportError_or_AttributeError e = true ->
     get_callback_info env c st =
       (Raise (CallError 404 (not_found_message (request c) e)), response c, st')) /\
  (forall e st',
     get_controller_info env c st = (Raise e, st') ->
     is_ImportError_or_AttributeError e = false ->
     get_callback_info env c st = (Raise e, response c, st')) /\
  (forall d st' instance r,
     get_controller_info env c st = (Ok d, st') ->
     construct (class d) (request c) (response c) = (Ok instance, r) ->
     inst_set_call instance = Ok tt ->
     inst_attrs instance !! PyStr.upper (req_method (request c)) = None ->
     get_callback_info env c st =
       (Raise (CallError 405 (not_supported_message (request c))), r, st')) /\
  (forall d st' e r,
     get_controller_info env c st = (Ok d, st') ->
     instantiate c d = (Raise e, r) ->
     get_callback_info env c st =
       (Raise (if is_AttributeError e
               then CallError 405 (not_supported_message (request c))
               else e), r, st')) /\
  (forall d st' callback r,
     get_controller_info env c st = (Ok d, st') ->
     instantiate c d = (Ok callback, r) ->
     get_callback_info env c st = (Ok (callback, args d, kwargs d), r, st')) /\
  (forall m r st',
     get_callback_info env c st = (Raise (CallError 404 m), r, st') ->
     (exists e, get_controller_info env c st = (Raise e, st') /\
                is_ImportError_or_AttributeError e = true /\
                m = not_found_message (request c) e) \/
     get_controller_info env c st = (Raise (CallError 404 m), st') \/
     (exists d, get_controller_info env c st = (Ok d, st') /\
                instantiate c d = (Raise (CallError 404 m), r))).
Proof.
  split; [|split; [|split; [|split; [|split]]]].
  - intros e st' H He.
    rewrite (get_callback_info_gather_raises _ _ _ _ _ H), He. reflexivity.
  - intros e st' H He.
    rewrite (get_callback_info_gather_raises _ _ _ _ _ H), He. reflexivity.
  - intros d st' instance r H Hc Hs Hm.
    rewrite (get_callback_info_gather_ok _ _ _ _ _ H).
    destruct (advanced_inv _ _ _ _ _ H) as (_ & _ & _ & _ & _ & _ & _ & _ & _ & _ & Hmeth).
    unfold instantiate, getattr_instance.
    rewrite Hc, Hs, Hmeth, Hm. reflexivity.
  - intros d st' e r H Hi.
    rewrite (get_callback_info_gather_ok _ _ _ _ _ H), Hi. reflexivity.
  - intros d st' callback r H Hi.
    rewrite (get_callback_info_gather_ok _ _ _ _ _ H), Hi. reflexivity.
  - intros m r st' H.
    destruct (get_controller_info env c st) as [[d|e] st1] eqn:Hg.
    + rewrite (get_callback_info_gather_ok _ _ _ _ _ Hg) in H.
      right; right. exists d.
      destruct (instantiate c d) as [[cb|e] r1]; [discriminate|]. simpl in H.
      destruct e as [cls msg|code msg].
      * destruct cls; simpl in H; inversion H.
      * simpl in H. inversion H; subst. auto.
    + rewrite (get_callback_info_gather_raises _ _ _ _ _ Hg) in H.
      destruct (is_ImportError_or_AttributeError e) eqn:He.
      * left. exists e. inversion H; subst. auto.
      * right; left. inversion H; subst. reflexivity.
Qed.

Lemma get_callback_info_codes_witness :
  exists d st' instance,
    get_controller_info Sample.env_nested
      (Sample.call_for "R" "POST" []) initial_state = (Ok d, st') /\
    construct (class d) (Sample.request_for "POST" []) Sample.fresh_response
      = (Ok instance, Sample.fresh_response) /\
    inst_set_call instance = Ok tt /\
    inst_attrs instance !! "POST" = None /\
    get_callback_info Sample.env_nested
      (Sample.call_for "R" "POST" []) initial_state
      = (Raise (CallError 405 "POST / not supported"), Sample.fresh_response, st').
Proof.
  eexists _, _, _.
  split; [vm_compute; reflexivity|].
  split; [vm_compute; reflexivity|].
  split; [reflexivity|].
  split; [vm_compute; reflexivity|].
  eapply (proj1 (proj2 (proj2 (get_callback_info_codes Sample.env_nested
            (Sample.call_for "R" "POST" []) initial_state))));
    vm_compute; reflexivity.
Defined.

(** C3 (as stated, refuted). Module and class resolve, but the constructor
    of the class raises [CallError(404, "gone")]: [get_callback_info] fails
    with a 404 although the gathering raised nothing.  And an import-time
    error of another class than [ImportError] and [AttributeError] (here a
    [NameError] at the top level of the package) is not turned into a 404:
    it leaves [get_callback_info] as it is and [handle] answers 500. *)
Lemma not_found_counterexample :
  (exists d st',
     get_controller_info Sample.env_init_404
       (Sample.call_for "R" "GET" []) initial_state = (Ok d, st') /\
     get_callback_info Sample.env_init_404
       (Sample.call_for "R" "GET" []) initial_state
       = (Raise (CallError 404 "gone"), Sample.fresh_response, st')) /\
  (exists st' r,
     get_controller_info Sample.env_import_boom
       (Sample.call_for "R" "GET" []) initial_state
       = (Raise (Exc NameError "name 'undefined' is not defined"), st') /\
     get_callback_info Sample.env_import_boom
       (Sample.call_for "R" "GET" []) initial_state
       = (Raise (Exc NameError "name 'undefined' is not defined"),
          Sample.fresh_response, st') /\
     handle Sample.env_import_boom
       (Sample.call_for "R" "GET" []) initial_state = (Ok r, st') /\
     resp_code r = 500%Z).
Proof.
  split.
  - eexists _, _. split; vm_compute; reflexivity.
  - eexists _, _. repeat split; vm_compute; reflexivity.
Qed.

(** [handle] in terms of the outcome of its [try] block. *)
Lemma handle_invocation (env : Env) (c : Call) (st : pystate) :
  handle env c st =
    match invocation env c st with
    | (Ok body, r, st') => (Ok (set_body (BodyValue body) r), st')
    | (Raise e, r, st') => (handle_except r e, st')
    end.
Proof.
  unfold handle, invocation.
  destruct (get_callback_info env c st) as [[[[[cb a] k]|e] r] st']; simpl.
  - destruct (cb a k _) as [[body|e] r']; reflexivity.
  - reflexivity.
Qed.

(** The [except] clauses answer every exception that derives from
    [Exception]: a [CallError] with its own code, any other with 500. *)
Lemma handle_except_spec (r : Response) (e : exn) :
  match e with
  | CallError code _ =>
      exists r', handle_except r e = Ok r' /\
                 resp_code r' = code /\ resp_body r' = BodyError e /\
                 resp_headers r' = resp_headers r
  | Exc _ _ =>
      if is_Exception e
      then exists r', handle_except r e = Ok r' /\
                      resp_code r' = 500%Z /\ resp_body r' = BodyError e /\
                      resp_headers r' = resp_headers r
      else handle_except r e = Raise e
  end.
Proof.
  destruct e as [cls m|code m].
  - unfold handle_except. destruct (is_Exception (Exc cls m)); [|reflexivity].
    eexists. repeat split.
  - eexists. repeat split.
Qed.

(** C2 (amended). Whatever happens in its [try] block, [handle] returns the
    response unless the block raises an exception that does not derive from
    [Exception]: a value returned by the controller becomes the body, the
    status code and the headers staying as the block has left them; a
    [CallError] sets the code to its code and the body to the error; any
    other exception deriving from [Exception] sets the code to 500 and the
    body to the error; [SystemExit], [KeyboardInterrupt] and
    [GeneratorExit] leave [handle]. *)
Theorem handle_two_tier (env : Env) (c : Call) (st : pystate) :
  match invocation env c st with
  | (Ok body, r0, st') =>
      exists r, handle env c st = (Ok r, st') /\
                resp_body r = BodyValue body /\
                resp_code r = resp_code r0 /\
                resp_headers r = resp_headers r0
  | (Raise (CallError code m), r0, st') =>
      exists r, handle env c st = (Ok r, st') /\
                resp_code r = code /\
                resp_body r = BodyError (CallError code m) /\
                resp_headers r = resp_headers r0
  | (Raise (Exc cls m), r0, st') =>
      if is_Exception (Exc cls m)
      then exists r, handle env c st = (Ok r, st') /\
                     resp_code r = 500%Z /\
                     resp_body r = BodyError (Exc cls m) /\
                     resp_headers r = resp_headers r0
      else handle env c st = (Raise (Exc cls m), st')
  end.
Proof.
  rewrite handle_invocation.
  destruct (invocation env c st) as [[[body|e] r0] st'].
  - eexists. repeat split.
  - pose proof (handle_except_spec r0 e) as Hs.
    destruct e as [cls m|code m].
    + destruct (is_Exception (Exc cls m)).
      * destruct Hs as (r' & -> & Hc & Hb & Hh). eauto.
      * rewrite Hs. reflexivity.
    + destruct Hs as (r' & -> & Hc & Hb & Hh). eauto.
Qed.

(** An exception that leaves [handle] does not derive from [Exception]. *)
Corollary handle_raises_only_base (env : Env) (c : Call) (st st' : pystate)
    (e : exn) :
  handle env c st = (Raise e, st') -> is_Exception e = false.
Proof.
  rewrite handle_invocation.
  destruct (invocation env c st) as [[[body|e0] r0] st0]; [discriminate|].
  unfold handle_except.
  destruct e0 as [cls m|code m]; [|discriminate].
  destruct (is_Exception (Exc cls m)) eqn:He; [discriminate|].
  intros [= <- _]. exact He.
Qed.

(** C2 (as stated, refuted). [Default.GET] calls [sys.exit()]: the
    [SystemExit] is matched neither by [except CallError] nor by
    [except Exception] and reaches the caller of [handle]; no response is
    returned. *)
Lemma handle_counterexample :
  exists st',
    handle Sample.env_exit (Sample.call_for "R" "GET" []) initial_state
      = (Raise (Exc SystemExit "0"), st').
Proof.
  eexists. vm_compute. reflexivity.
Qed.

(** What the controller writes to the response stays: a constructor that
    sets a header and a [POST] that sets the code to 201 give a response
    with that header and that code. *)
Example handle_keeps_controller_writes :
  exists st',
    handle env_writer (Sample.call_for "R" "POST" []) initial_state =
      (Ok {| resp_code := 201;
             resp_headers := {[ "Content-Type" := Some "application/json";
                                "Access-Control-Allow-Origin" := Some "*" ]};
             resp_body := BodyValue "made" |}, st').
Proof. eexists. vm_compute. reflexivity. Qed.

(** ** Version negotiation *)

(** The loop stops at the first entry that carries a version. *)
Lemma version_loop_first (v0 : option string) (pre post : list MediaType)
    (mt : MediaType) :
  Forall (fun x => carries_version x = false) pre ->
  carries_version mt = true ->
  version_loop v0 (pre ++ mt :: post)%list = mt_params mt !! "version".
Proof.
  intros Hpre Hmt. revert v0.
  induction Hpre as [|x pre Hx _ IH]; intros v0; simpl.
  - unfold carries_version in Hmt. rewrite Hmt. reflexivity.
  - unfold carries_version in Hx. rewrite Hx. apply IH.
Qed.

(** Without such an entry the loop ends with a value that counts as false. *)
Lemma version_loop_none (v0 : option string) (mts : list MediaType) :
  PyStr.truthy_opt v0 = false ->
  Forall (fun x => carries_version x = false) mts ->
  PyStr.truthy_opt (version_loop v0 mts) = false.
Proof.
  intros Hv0 Hall. revert v0 Hv0.
  induction Hall as [|x mts Hx _ IH]; intros v0 Hv0; simpl.
  - exact Hv0.
  - unfold carries_version in Hx. rewrite Hx. apply IH. exact Hx.
Qed.

Lemma truthy_nonempty (s : string) : s <> "" -> PyStr.truthy s = true.
Proof. destruct s; [congruence | reflexivity]. Qed.

(** Without a content type [get_version] fails before it looks at the
    request. *)
Lemma get_version_no_content_type (env : Env) (c : Call) :
  PyStr.truthy_opt (content_type c) = false ->
  get_version env c =
    Raise (Exc ValueError "You are versioning a call with no content_type").
Proof. intros H. unfold get_version. rewrite H. reflexivity. Qed.

(** C7. With a declared content type, [get_version] returns the version of
    the first compatible Accept-header entry that carries one; when no entry
    carries one (or there is no Accept header) it returns the configured
    default version; when there is no default either it fails with a
    [CallError] of code 406. *)
Theorem get_version_negotiation (env : Env) (c : Call) (ct : string) :
  content_type c = Some ct ->
  ct <> "" ->
  (forall (pre : list MediaType) (mt : MediaType) (post : list MediaType) (v : string),
     compatible_entries env c ct = (pre ++ mt :: post)%list ->
     Forall (fun x => carries_version x = false) pre ->
     mt_params mt !! "version" = Some v ->
     v <> "" ->
     get_version env c = Ok v) /\
  (Forall (fun x => carries_version x = false) (compatible_entries env c ct) ->
   (forall dv, default_version c = Some dv -> dv <> "" ->
               get_version env c = Ok dv) /\
   (PyStr.truthy_opt (default_version c) = false ->
    get_version env c =
      Raise (CallError 406
               ("Expected accept header with " +:+ ct +:+ ";version=N media type")))).
Proof.
  intros Hct Hne.
  assert (PyStr.truthy_opt (content_type c) = true) as Htr
    by (rewrite Hct; simpl; apply truthy_nonempty; exact Hne).
  unfold get_version, compatible_entries. rewrite Htr, Hct. simpl negb. cbv iota.
  simpl str_of_opt.
  set (header := default "" (req_headers (request c) !! "accept")).
  split.
  - intros pre mt post v Hentries Hpre Hv Hvne.
    destruct (PyStr.truthy header).
    + rewrite Hentries, version_loop_first; try assumption.
      * rewrite Hv. simpl. rewrite (truthy_nonempty v Hvne). reflexivity.
      * unfold carries_version. rewrite Hv. simpl. apply truthy_nonempty, Hvne.
    + destruct pre; discriminate.
  - intros Hall.
    assert (PyStr.truthy_opt
              (if PyStr.truthy header
               then version_loop None (accept_filter env header ct)
               else None) = false) as Hfalse.
    { destruct (PyStr.truthy header); [|reflexivity].
      apply version_loop_none; [reflexivity | exact Hall]. }
    rewrite Hfalse. simpl negb. cbv iota. split.
    + intros dv Hdv Hdvne. rewrite Hdv. simpl.
      rewrite (truthy_nonempty dv Hdvne). reflexivity.
    + intros Hd. rewrite Hd. reflexivity.
Qed.

Lemma get_version_negotiation_witness :
  content_type (Sample.version_call (Some Sample.accept_v1) None)
    = Some "application/json" /\
  "application/json" <> "" /\
  get_version Sample.env_versions
    (Sample.version_call (Some Sample.accept_v1) None) = Ok "v1" /\
  get_version Sample.env_versions
    (Sample.version_call None (Some "v3")) = Ok "v3" /\
  get_version Sample.env_versions (Sample.version_call None None)
    = Raise (CallError 406
               "Expected accept header with application/json;version=N media type").
Proof.
  split; [reflexivity|]. split; [discriminate|]. split; [|split].
  - eapply (proj1 (get_version_negotiation Sample.env_versions
              (Sample.version_call (Some Sample.accept_v1) None)
              "application/json" eq_refl ltac:(discriminate))
              [] _ [] "v1");
      [vm_compute; reflexivity | constructor | vm_compute; reflexivity | discriminate].
  - eapply (proj1 (proj2 (get_version_negotiation Sample.env_versions
              (Sample.version_call None (Some "v3"))
              "application/json" eq_refl ltac:(discriminate))
              ltac:(constructor)) "v3");
      [reflexivity | discriminate].
  - eapply (proj2 (proj2 (get_version_negotiation Sample.env_versions
              (Sample.version_call None None)
              "application/json" eq_refl ltac:(discriminate))
              ltac:(constructor)));
      reflexivity.
Defined.

(** ** Route decorators *)

Section RouteFailure.
Import Decorators.

(** Once a failure action is recorded, alternatives that all fail end in
    that action. *)
Lemma select_alternative_all_fail (controller : Controller)
    (d : decorator_class) (bs : list Binding) (args : list string)
    (kwargs : gmap string string) :
  Forall (fun b => predicate b (ctl_request controller) = false) bs ->
  select_alternative controller (Some d) bs args kwargs =
    dbind (handle_failure d controller) (fun _ => DOk None).
Proof.
  induction 1 as [|b bs Hb _ IH]; simpl.
  - reflexivity.
  - rewrite Hb. exact IH.
Qed.

(** C8. When the predicate of every alternative fails, the outcome is the
    one of the failure action, that of the decorator of the first
    alternative: with the generic [route] decorator (and with [path_route]
    and [version], which inherit its [handle_failure]) a [CallError] of
    code 405, with [param_route] a [CallError] of code 400. *)
Theorem failure_action_status (controller : Controller) (b0 : Binding)
    (bs : list Binding) (args : list string) (kwargs : gmap string string) :
  Forall (fun b => predicate b (ctl_request controller) = false) (b0 :: bs) ->
  handle_failure route controller =
    DRaise (Base (CallError 405 (could_not_find (ctl_request controller)))) /\
  handle_failure param_route controller =
    DRaise (Base (CallError 400 (could_not_find (ctl_request controller)))) /\
  select_alternative controller None (b0 :: bs) args kwargs =
    DRaise (Base (CallError
                    (match decorator b0 with
                     | param_route => 400
                     | route | path_route | version => 405
                     end)
                    (could_not_find (ctl_request controller)))).
Proof.
  intros Hall. split; [reflexivity|]. split; [reflexivity|].
  inversion Hall as [|b bs' Hb0 Hbs]; subst.
  simpl. rewrite Hb0.
  rewrite select_alternative_all_fail by assumption.
  destruct (decorator b0); reflexivity.
Qed.

Lemma failure_action_status_witness :
  Forall (fun b => predicate b (ctl_request (Sample.controller_for ["a"; "b"; "c"])) = false)
    (Sample.get_alternatives route) /\
  Forall (fun b => predicate b (ctl_request (Sample.controller_for ["a"; "b"; "c"])) = false)
    (Sample.get_alternatives param_route) /\
  select_alternative (Sample.controller_for ["a"; "b"; "c"]) None
    (Sample.get_alternatives route) ["a"; "b"; "c"] ∅ =
    DRaise (Base (CallError 405 "Could not find a method to satisfy /a/b/c")) /\
  select_alternative (Sample.controller_for ["a"; "b"; "c"]) None
    (Sample.get_alternatives param_route) ["a"; "b"; "c"] ∅ =
    DRaise (Base (CallError 400 "Could not find a method to satisfy /a/b/c")).
Proof.
  assert (forall d,
    Forall (fun b => predicate b (ctl_request (Sample.controller_for ["a"; "b"; "c"])) = false)
      (Sample.get_alternatives d)) as Hall
    by (intros d; repeat constructor).
  split; [apply Hall|]. split; [apply Hall|]. split.
  - exact (proj2 (proj2 (failure_action_status _ _ _ ["a"; "b"; "c"] ∅ (Hall route)))).
  - exact (proj2 (proj2 (failure_action_status _ _ _ ["a"; "b"; "c"] ∅ (Hall param_route)))).
Defined.

(** An alternative whose predicate holds is selected before any failure
    action comes into play. *)
Example get_alternatives_select :
  select_alternative (Sample.controller_for ["a"]) None
    (Sample.get_alternatives route) ["a"] ∅ = DOk (Some "two").
Proof. reflexivity. Qed.

(** C10. [version.target] raises a [NameError] on every call: its first
    step reads the name [req], which is neither a local variable, nor bound
    in the module, nor a built-in (and so are [versions] and [slf];
    [self.paths] is set by neither [decorate]).  The class body binds
    [decorate] twice and the second binding is the one the class keeps:
    applying the decorator wraps the function in a check that raises
    [VersionError] when the version of the request is not among the
    declared ones and calls the function otherwise; [target] is not part
    of what is installed. *)
Theorem version_decorator_shadowed :
  (forall env self request,
     version_target env self request =
       DRaise (Base (Exc NameError "global name 'req' is not defined"))) /\
  Forall (fun name => mem name module_globals || mem name builtins = false)
    ["req"; "versions"; "slf"] /\
  (forall env self func versions,
     match version_decorate_first env self func versions with
     | ByTarget _ _ self' => self' !! "paths" = self !! "paths"
     | Wrapped _ => False
     end) /\
  class_attr version "decorate" = Some (Def_decorate version_decorate_second) /\
  (forall env slf func versions,
     exists decorated,
       version_decorate_second env slf func versions = Wrapped decorated /\
       forall controller args kwargs,
         decorated controller args kwargs =
           let req_version :=
             request_version env (ctl_request controller)
               (ctl_content_type controller) in
           if bool_decide (req_version ∈ (list_to_set versions : gset string))
           then func controller args kwargs
           else DRaise (VersionError req_version (list_to_set versions))).
Proof.
  split; [|split; [|split; [|split]]].
  - intros env self request. reflexivity.
  - repeat constructor.
  - intros env self func versions. simpl.
    apply lookup_insert_ne. discriminate.
  - reflexivity.
  - intros env slf func versions. eexists. split; [reflexivity|].
    intros controller args kwargs. simpl.
    destruct (bool_decide _); reflexivity.
Qed.

End RouteFailure.

(** * Further properties of the code *)

(** ** What the walk of [get_controllers] finds *)

Lemma append_assoc (a b c : string) : (a +:+ b) +:+ c = a +:+ b +:+ c.
Proof.
  induction a as [|x a IH]; [reflexivity|].
  change (String x ((a +:+ b) +:+ c) = String x (a +:+ b +:+ c)).
  rewrite IH. reflexivity.
Qed.


Lemma prefix_cons (a c : ascii) (p s : string) :
  String.prefix (String a p) (String c s) =
    if ascii_dec a c then String.prefix p s else false.
Proof. reflexivity. Qed.

(** A package marker is an underscore-prefixed file. *)
Lemma init_is_private (f : string) :
  PyStr.startswith f "__init__" = true -> PyStr.startswith f "_" = true.
Proof.
  destruct f as [|c f]; [discriminate|].
  unfold PyStr.startswith. rewrite !prefix_cons.
  destruct (ascii_dec "_" c); [|discriminate].
  intros _. destruct f; reflexivity.
Qed.

(** What one file adds. *)
Lemma elem_of_add_file (module_name : list string) (modules : gset string)
    (f name : string) :
  name ∈ add_file module_name modules f <->
  name ∈ modules \/
  (PyStr.startswith f "__init__" = true /\ name = PyStr.join "." module_name) \/
  (PyStr.startswith f "_" = false /\
   name = PyStr.join "." (module_name ++ [PyStr.splitext_root f])).
Proof.
  unfold add_file.
  destruct (PyStr.startswith f "__init__") eqn:Hi.
  - rewrite elem_of_union, elem_of_singleton.
    pose proof (init_is_private f Hi) as Hu.
    rewrite Hu. intuition congruence.
  - destruct (PyStr.startswith f "_") eqn:Hu; simpl.
    + intuition congruence.
    + rewrite elem_of_union, elem_of_singleton. intuition congruence.
Qed.

(** What the files of one directory add. *)
Lemma elem_of_add_files (module_name : list string) (files : list string)
    (modules : gset string) (name : string) :
  name ∈ fold_left (add_file module_name) (fnmatch_py files) modules <->
  name ∈ modules \/
  exists f, In f files /\ PyStr.endswith f ".py" = true /\
    ((PyStr.startswith f "__init__" = true /\ name = PyStr.join "." module_name) \/
     (PyStr.startswith f "_" = false /\
      name = PyStr.join "." (module_name ++ [PyStr.splitext_root f]))).
Proof.
  unfold fnmatch_py. revert modules.
  induction files as [|f files IH]; intros modules; simpl.
  - split; [auto | intros [H | (f & [] & _)]; exact H].
  - destruct (PyStr.endswith f ".py") eqn:He; simpl.
    + rewrite IH, elem_of_add_file. split.
      * intros [[H | H] | (g & Hg & Hrest)]; [auto | | ].
        -- right. exists f. auto.
        -- right. exists g. auto.
      * intros [H | (g & [<- | Hg] & Hge & Hrest)]; [auto | auto | ].
        right. exists g. auto.
    + rewrite IH. split.
      * intros [H | (g & Hg & Hrest)]; [auto|]. right. exists g. auto.
      * intros [H | (g & [<- | Hg] & Hge & Hrest)]; [auto | congruence | ].
        right. exists g. auto.
Qed.

Lemma found_in_app (p name : string) (a b : list (list string * list string)) :
  found_in p name (a ++ b)%list <-> found_in p name a \/ found_in p name b.
Proof.
  unfold found_in. split.
  - intros (r & fs & f & Hin & Hrest). apply in_app_or in Hin.
    destruct Hin; [left | right]; exists r, fs, f; auto.
  - intros [(r & fs & f & Hin & Hrest) | (r & fs & f & Hin & Hrest)];
      exists r, fs, f; split; auto; apply in_or_app; auto.
Qed.

Lemma found_in_cons (p name : string) (a : list string * list string)
    (b : list (list string * list string)) :
  found_in p name (a :: b) <-> found_in p name [a] \/ found_in p name b.
Proof. apply (found_in_app p name [a] b). Qed.

Lemma found_in_nil (p name : string) : found_in p name [] <-> False.
Proof. unfold found_in. split; [intros (r & fs & f & [] & _) | tauto]. Qed.

Lemma found_in_one (p name : string) (rel files : list string) :
  found_in p name [(rel, files)] <->
  exists f, In f files /\ PyStr.endswith f ".py" = true /\
    ((PyStr.startswith f "__init__" = true /\ name = PyStr.join "." (p :: rel)) \/
     (PyStr.startswith f "_" = false /\
      name = PyStr.join "." ((p :: rel) ++ [PyStr.splitext_root f]))).
Proof.
  unfold found_in. split.
  - intros (r & fs & f & [[= <- <-] | []] & Hf & Hrest). exists f. auto.
  - intros (f & Hf & Hrest). exists rel, files, f. simpl. auto.
Qed.

(** The walk adds to [modules] exactly the identifiers given by the files
    of the directories of the tree, whatever the directories are called. *)
Lemma elem_of_walk (p : string) (t : dirtree) :
  forall (rel : list string) (modules : gset string) (name : string),
    name ∈ walk p rel t modules <->
    name ∈ modules \/ found_in p name (directories rel t).
Proof.
  induction t as [n files subdirs IH] using dirtree_forall_ind.
  intros rel modules name. simpl walk. simpl directories.
  rewrite found_in_cons.
  pose proof (elem_of_add_files (p :: rel) files modules name) as Hfiles.
  rewrite <- found_in_one in Hfiles.
  revert Hfiles.
  generalize (fold_left (add_file (p :: rel)) (fnmatch_py files) modules).
  intros acc Hacc.
  assert (forall acc0 : gset string,
    name ∈ (fix walk_dirs (dirs : list dirtree) (modules0 : gset string)
              : gset string :=
              match dirs with
              | [] => modules0
              | d :: dirs' =>
                  if keep_dir (dir_name d)
                  then walk_dirs dirs' (walk p (rel ++ [dir_name d]) d modules0)
                  else walk_dirs dirs' modules0
              end) subdirs acc0 <->
    name ∈ acc0 \/
    found_in p name
      ((fix below (ds : list dirtree) : list (list string * list string) :=
          match ds with
          | [] => []
          | d :: ds' => (directories (rel ++ [dir_name d]) d ++ below ds')%list
          end) subdirs)) as Hdirs.
  { induction IH as [|d ds Hd _ IHds]; intros acc0.
    - rewrite found_in_nil. tauto.
    - cbn iota beta fix. rewrite keep_dir_always.
      rewrite IHds, found_in_app.
      rewrite (Hd (rel ++ [dir_name d])%list acc0 name). tauto. }
  rewrite Hdirs, Hacc. tauto.
Qed.

Lemma prefix_append (a b : string) : String.prefix a (a +:+ b) = true.
Proof.
  induction a as [|x a IH].
  - destruct b; reflexivity.
  - change (String x a +:+ b) with (String x (a +:+ b)).
    rewrite prefix_cons. destruct (ascii_dec x x); [exact IH | contradiction].
Qed.

Lemma join_cons_cons (p s : string) (rest : list string) :
  PyStr.join "." (p :: s :: rest) = (p +:+ ".") +:+ PyStr.join "." (s :: rest).
Proof. unfold PyStr.join. rewrite append_assoc. reflexivity. Qed.

(** X1. The set built for a prefix holds exactly the identifiers given by
    the [.py] files of the package tree: for every directory of the tree, at
    any depth and whatever its name, a file whose name starts with
    [__init__] gives the dotted name of the directory, and a file whose name
    does not start with an underscore gives that name extended by the file
    name without extension; nothing else is in the set. *)
Theorem get_controllers_finds (env : Env) (p : string) (st : pystate)
    (m : pymodule) (t : dirtree) :
  p <> "" ->
  module_cache st !! p = None ->
  import_module env p = Ok m ->
  os_walk env (PyStr.dirname (mod_file m)) = Some t ->
  exists l st1,
    get_controllers env p st = (Ok (SetRef l), st1) /\
    forall name,
      contains st1 (SetRef l) name = true <->
      exists rel files f,
        In (rel, files) (directories [] t) /\
        In f files /\ PyStr.endswith f ".py" = true /\
        ((PyStr.startswith f "__init__" = true /\
          name = PyStr.join "." (p :: rel)) \/
         (PyStr.startswith f "_" = false /\
          name = PyStr.join "." (p :: rel ++ [PyStr.splitext_root f]))).
Proof.
  intros Hp Hc Hm Ht.
  destruct (get_controllers_first env p st m Hp Hc Hm) as (st1 & Hcall & Hheap).
  exists (length (heap st)), st1. split; [exact Hcall|].
  intros name. unfold contains. rewrite Hheap, Ht.
  rewrite bool_decide_eq_true, elem_of_walk.
  fold (found_in p name (directories [] t)).
  split; [intros [H | H]; [set_solver | exact H] | auto].
Qed.

Lemma get_controllers_finds_witness :
  exists l st1,
    get_controllers Sample.env_private "R" initial_state = (Ok (SetRef l), st1) /\
    contains st1 (SetRef l) "R._private.secret" = true /\
    contains st1 (SetRef l) "R._helpers" = false.
Proof.
  destruct (get_controllers_finds Sample.env_private "R" initial_state
              {| mod_file := "/srv/R/__init__.py";
                 mod_attrs := {[ "Default" := Sample.default_get ]} |}
              Sample.tree_private ltac:(discriminate) eq_refl eq_refl eq_refl)
    as (l & st1 & Hcall & Hmem).
  exists l, st1. split; [exact Hcall|]. split.
  - apply Hmem. exists ["_private"], ["__init__.py"; "secret.py"], "secret.py".
    repeat split; simpl; auto.
  - assert (st1 = snd (get_controllers Sample.env_private "R" initial_state))
      as -> by (rewrite Hcall; reflexivity).
    assert (l = 0) as ->.
    { assert (Ok (SetRef l) = fst (get_controllers Sample.env_private "R" initial_state))
        as Hl by (rewrite Hcall; reflexivity).
      vm_compute in Hl. congruence. }
    vm_compute. reflexivity.
Defined.

(** X2. Every identifier in the set built for a prefix is the prefix itself
    or begins with the prefix followed by a dot. *)
Theorem get_controllers_under_prefix (env : Env) (p : string) (st : pystate)
    (m : pymodule) :
  p <> "" ->
  module_cache st !! p = None ->
  import_module env p = Ok m ->
  exists l st1,
    get_controllers env p st = (Ok (SetRef l), st1) /\
    forall name,
      contains st1 (SetRef l) name = true ->
      name = p \/ PyStr.startswith name (p +:+ ".") = true.
Proof.
  intros Hp Hc Hm.
  destruct (get_controllers_first env p st m Hp Hc Hm) as (st1 & Hcall & Hheap).
  exists (length (heap st)), st1. split; [exact Hcall|].
  intros name. unfold contains. rewrite Hheap.
  rewrite bool_decide_eq_true.
  destruct (os_walk env (PyStr.dirname (mod_file m))) as [t|]; [|set_solver].
  rewrite elem_of_walk. intros [H | (rel & files & f & _ & _ & _ & Hname)];
    [set_solver|].
  assert (forall segs, PyStr.join "." (p :: segs) = p \/
            PyStr.startswith (PyStr.join "." (p :: segs)) (p +:+ ".") = true) as Hj.
  { intros [|s segs]; [left; reflexivity|].
    right. rewrite join_cons_cons. apply prefix_append. }
  destruct Hname as [[_ ->] | [_ ->]]; apply Hj.
Qed.

Lemma get_controllers_under_prefix_witness :
  exists l st1,
    get_controllers Sample.env_tests "controller_info_advanced" initial_state
      = (Ok (SetRef l), st1) /\
    forall name,
      contains st1 (SetRef l) name = true ->
      name = "controller_info_advanced" \/
      PyStr.startswith name "controller_info_advanced." = true.
Proof.
  destruct (get_controllers_under_prefix Sample.env_tests
              "controller_info_advanced" initial_state
              {| mod_file := "/tmp/controller_info_advanced/__init__.py";
                 mod_attrs := {[ "Controller" := Sample.controller [];
                                 "Default" := Sample.get_only ]} |}
              ltac:(discriminate) eq_refl ltac:(vm_compute; reflexivity))
    as (l & st1 & Hcall & Hall).
  exists l, st1. split; [exact Hcall | exact Hall].
Defined.

(** X3. A call of [get_controllers] that fails changes neither the cache
    nor the set objects, so the failure is not remembered; it can fail only
    for the empty prefix, then with a [ValueError], or for a prefix that is
    not cached, and when the import of such a prefix fails the call fails
    with the error of the import. *)
Theorem get_controllers_failure (env : Env) (p : string) (st st' : pystate)
    (e : exn) :
  get_controllers env p st = (Raise e, st') ->
  st' = st /\
  ((p = "" /\ e = Exc ValueError "controller prefix is empty") \/
   (p <> "" /\ module_cache st !! p = None /\
    forall e0, import_module env p = Raise e0 -> e = e0)).
Proof.
  unfold get_controllers. destruct p as [|c p]; simpl.
  - intros [= <- <-]. auto.
  - destruct (module_cache st !! String c p) as [v|] eqn:Hc; [discriminate|].
    destruct (import_module env (String c p)) as [m|e1] eqn:Him; [discriminate|].
    intros [= <- <-]. split; [reflexivity|]. right.
    repeat split; try discriminate. congruence.
Qed.

Lemma get_controllers_failure_witness :
  get_controllers Sample.env_gap "R.a" initial_state
    = (Raise (Exc ImportError "No module named R.a"), initial_state) /\
  module_cache initial_state !! "R.a" = None.
Proof.
  split; [reflexivity|].
  destruct (get_controllers_failure Sample.env_gap "R.a" initial_state
              initial_state (Exc ImportError "No module named R.a") eq_refl)
    as [_ [[Hempty _] | (_ & Hmiss & _)]]; [discriminate Hempty | exact Hmiss].
Defined.

(** One call keeps the state well formed. *)
Lemma get_controllers_wf (env : Env) (q : string) (st : pystate) :
  cache_wf st -> cache_wf (snd (get_controllers env q st)).
Proof.
  intros [Halloc Hinj]. unfold get_controllers.
  destruct (negb (PyStr.truthy q)); [split; assumption|].
  destruct (module_cache st !! q) as [cached|] eqn:Hc; [split; assumption|].
  destruct (import_module env q) as [m|e]; [|split; assumption].
  unfold cache_wf, setdefault. simpl. rewrite Hc. split.
  - intros p v.
    destruct (decide (q = p)) as [<-|Hne].
    + rewrite lookup_insert_eq. intros [= <-]. eexists. split; [reflexivity|].
      rewrite length_app. simpl. lia.
    + rewrite !lookup_insert_ne by assumption. intros Hp.
      destruct (Halloc p v Hp) as (l & -> & Hl). exists l. split; [reflexivity|].
      rewrite length_app. simpl. lia.
  - intros p p' l.
    destruct (decide (q = p)) as [<-|Hne]; destruct (decide (q = p')) as [<-|Hne'];
      rewrite ?lookup_insert_eq, ?lookup_insert_ne by assumption.
    + reflexivity.
    + intros [= <-] Hp'. destruct (Halloc p' _ Hp') as (l & [= <-] & Hl). lia.
    + intros Hp [= <-]. destruct (Halloc p _ Hp) as (l & [= <-] & Hl). lia.
    + apply Hinj.
Qed.

Lemma run_calls_wf (calls : list (Env * string)) (st : pystate) :
  cache_wf st -> cache_wf (run_calls calls st).
Proof.
  revert st. induction calls as [|[env q] calls IH]; intros st Hwf; simpl.
  - exact Hwf.
  - apply IH, get_controllers_wf, Hwf.
Qed.

Lemma initial_state_wf : cache_wf initial_state.
Proof. split; intros p; intros; simplify_map_eq. Qed.

(** X4. In every state reached from the empty cache by calls of
    [get_controllers], each cache entry refers to an allocated set (the
    empty dictionary put in by [setdefault] is never what a call returns)
    and two different prefixes never share their set object. *)
Theorem get_controllers_cache_invariant (calls : list (Env * string))
    (env : Env) (p : string) (v : cache_entry) (st' : pystate) :
  get_controllers env p (run_calls calls initial_state) = (Ok v, st') ->
  (exists l s, v = SetRef l /\ heap st' !! l = Some s) /\
  forall q l, q <> p -> module_cache st' !! q = Some (SetRef l) -> v <> SetRef l.
Proof.
  intros Hcall.
  pose proof (get_controllers_wf env p _ (run_calls_wf calls _ initial_state_wf))
    as [Halloc Hinj].
  rewrite Hcall in Halloc, Hinj. simpl in Halloc, Hinj.
  pose proof (get_controllers_stores _ _ _ _ _ Hcall) as Hstored.
  split.
  - destruct (Halloc p v Hstored) as (l & -> & Hl).
    destruct (lookup_lt_is_Some_2 _ _ Hl) as [s Hs]. eauto.
  - intros q l Hne Hq ->. apply Hne. exact (Hinj q p l Hq Hstored).
Qed.

Lemma get_controllers_cache_invariant_witness :
  exists v st',
    get_controllers Sample.env_nested "R"
      (run_calls [(Sample.env_tests, "controller_info_advanced")] initial_state)
      = (Ok v, st') /\
    (exists l s, v = SetRef l /\ heap st' !! l = Some s) /\
    forall q l, q <> "R" -> module_cache st' !! q = Some (SetRef l) -> v <> SetRef l.
Proof.
  eexists _, _. split; [vm_compute; reflexivity|].
  apply (get_controllers_cache_invariant
           [(Sample.env_tests, "controller_info_advanced")] Sample.env_nested "R").
  vm_compute; reflexivity.
Defined.

(** ** Further properties of controller resolution *)

(** X5. Resolving the same request again, in the state the first
    resolution has left, gives the very same controller info and leaves the
    state as it is. *)
Theorem advanced_resolution_idempotent (env : Env) (c : Call) (st st' : pystate)
    (d : ControllerInfo) :
  get_controller_info_advanced env c st = (Ok d, st') ->
  get_controller_info_advanced env c st' = (Ok d, st').
Proof.
  unfold get_controller_info_advanced, bind, lift, get_state, ret.
  destruct (get_normalized_prefix env c) as [prefix|e]; [|discriminate].
  destruct (get_controllers env prefix st) as [[cset|e] st1] eqn:Hgc; [|discriminate].
  assert (get_controllers env prefix st1 = (Ok cset, st1)) as Hagain.
  { apply get_controllers_hit.
    - intros ->. unfold get_controllers in Hgc. simpl in Hgc. discriminate.
    - exact (get_controllers_stores _ _ _ _ _ Hgc). }
  destruct (module_walk (contains st1 cset) prefix prefix (path_args (request c)))
    as [mname rest] eqn:Hw.
  destruct (import_module env mname) as [m|e] eqn:Him; [|discriminate].
  destruct (class_pick m rest) as [cname rest'] eqn:Hp.
  destruct (getattr m cname) as [cls|e] eqn:Hga; [|discriminate].
  intros [= <- <-].
  rewrite Hagain, Hw, Him, Hp, Hga. reflexivity.
Qed.

Lemma advanced_resolution_idempotent_witness :
  exists d st',
    get_controller_info_advanced Sample.env_tests
      (Sample.call_for "controller_info_advanced" "GET" ["foo"; "bar"; "happy"])
      initial_state = (Ok d, st') /\
    get_controller_info_advanced Sample.env_tests
      (Sample.call_for "controller_info_advanced" "GET" ["foo"; "bar"; "happy"])
      st' = (Ok d, st').
Proof.
  eexists _, _. split; [vm_compute; reflexivity|].
  apply (advanced_resolution_idempotent Sample.env_tests
           (Sample.call_for "controller_info_advanced" "GET" ["foo"; "bar"; "happy"])
           initial_state).
  vm_compute; reflexivity.
Defined.

(** The module walk ends on the name it started from or on a name of the
    set. *)
Lemma module_walk_in_set (in_cset : string -> bool) (prefix : string)
    (path : list string) :
  (module_walk in_cset prefix prefix path).1 = prefix \/
  in_cset (module_walk in_cset prefix prefix path).1 = true.
Proof.
  destruct (module_walk_spec in_cset prefix path) as (k & Hk & -> & Hall & _).
  destruct k as [|k]; [left; reflexivity|].
  right. apply Hall. lia.
Qed.

(** X6. The module that advanced resolution imports is the controller
    prefix itself or a member of the controller set: no other module is ever
    imported on behalf of a request path. *)
Theorem advanced_resolution_module_known (env : Env) (c : Call)
    (st st' : pystate) (d : ControllerInfo) :
  get_controller_info_advanced env c st = (Ok d, st') ->
  exists prefix cset,
    get_normalized_prefix env c = Ok prefix /\
    get_controllers env prefix st = (Ok cset, st') /\
    import_module env (module_name d) = Ok (module d) /\
    (module_name d = prefix \/ known st' cset (module_name d)).
Proof.
  intros H.
  destruct (advanced_inv _ _ _ _ _ H)
    as (prefix & cset & Hp & Hgc & Hmn & Him & _).
  exists prefix, cset. rewrite Hmn. repeat split; try assumption.
  apply module_walk_in_set.
Qed.

Lemma advanced_resolution_module_known_witness :
  exists d st' prefix cset,
    get_controller_info_advanced Sample.env_private
      (Sample.call_for "R" "GET" ["_helpers"; "x"]) initial_state = (Ok d, st') /\
    get_normalized_prefix Sample.env_private
      (Sample.call_for "R" "GET" ["_helpers"; "x"]) = Ok prefix /\
    get_controllers Sample.env_private prefix initial_state = (Ok cset, st') /\
    import_module Sample.env_private (module_name d) = Ok (module d) /\
    (module_name d = prefix \/ known st' cset (module_name d)).
Proof.
  eexists _, _.
  destruct (advanced_resolution_module_known Sample.env_private
              (Sample.call_for "R" "GET" ["_helpers"; "x"]) initial_state
              _ _ ltac:(vm_compute; reflexivity))
    as (prefix & cset & H).
  exists prefix, cset. split; [vm_compute; reflexivity | exact H].
Defined.

Lemma upper_ascii_idem (c : ascii) :
  PyStr.upper_ascii (PyStr.upper_ascii c) = PyStr.upper_ascii c.
Proof. destruct c as [[] [] [] [] [] [] [] []]; reflexivity. Qed.

Lemma lower_ascii_idem (c : ascii) :
  PyStr.lower_ascii (PyStr.lower_ascii c) = PyStr.lower_ascii c.
Proof. destruct c as [[] [] [] [] [] [] [] []]; reflexivity. Qed.

Lemma upper_lower_ascii (c : ascii) :
  PyStr.upper_ascii (PyStr.lower_ascii c) = PyStr.upper_ascii c.
Proof. destruct c as [[] [] [] [] [] [] [] []]; reflexivity. Qed.

Lemma lower_idem (s : string) : PyStr.lower (PyStr.lower s) = PyStr.lower s.
Proof.
  induction s as [|c s IH]; [reflexivity|].
  unfold PyStr.lower in *. simpl. rewrite lower_ascii_idem, IH. reflexivity.
Qed.

Lemma capitalize_idem (s : string) :
  PyStr.capitalize (PyStr.capitalize s) = PyStr.capitalize s.
Proof.
  destruct s as [|c s]; [reflexivity|].
  unfold PyStr.capitalize. rewrite upper_ascii_idem, lower_idem. reflexivity.
Qed.

Lemma class_pick_capitalized (m : pymodule) (path : list string) :
  PyStr.capitalize (class_pick m path).1 = (class_pick m path).1.
Proof.
  destruct path as [|p0 rest]; [reflexivity|]. simpl.
  destruct (hasattr m (PyStr.capitalize p0)); [apply capitalize_idem | reflexivity].
Qed.

(** X7. The class name chosen by a resolution, advanced or simple, is
    always in capitalized form (first letter upper case, all others lower
    case): a class whose name is not, such as [FooBar], is never selected,
    whatever the path. *)
Theorem resolved_class_name_capitalized (env : Env) (c : Call) (name : string) :
  PyStr.capitalize name <> name ->
  (forall st st' d,
     get_controller_info_advanced env c st = (Ok d, st') -> class_name d <> name) /\
  (forall d, get_controller_info_simple env c = Ok d -> class_name d <> name).
Proof.
  intros Hname. split.
  - intros st st' d H.
    destruct (advanced_inv _ _ _ _ _ H) as (prefix & cset & _ & _ & _ & _ & Hcn & _).
    intros <-. apply Hname. rewrite Hcn. apply class_pick_capitalized.
  - intros d. unfold get_controller_info_simple.
    destruct (path_args (request c)) as [|s0 rest0].
    + destruct (get_normalized_prefix env c); [|discriminate].
      destruct (import_module env _) as [m|]; [|discriminate].
      destruct (getattr m "Default"); [|discriminate].
      intros [= <-]. simpl. intros <-. apply Hname. reflexivity.
    + destruct (PyStr.startswith s0 "_"); [discriminate|].
      destruct (get_normalized_prefix env c); [|discriminate].
      destruct rest0 as [|s1 rest1].
      * destruct (import_module env _) as [m|]; [|discriminate].
        destruct (getattr m "Default"); [|discriminate].
        intros [= <-]. simpl. intros <-. apply Hname. reflexivity.
      * destruct (PyStr.startswith s1 "_"); [discriminate|].
        destruct (import_module env _) as [m|]; [|discriminate].
        destruct (getattr m _); [|discriminate].
        intros [= <-]. simpl. intros <-. apply Hname. apply capitalize_idem.
Qed.

Lemma resolved_class_name_capitalized_witness :
  PyStr.capitalize "FooBar" <> "FooBar" /\
  forall d st',
    get_controller_info_advanced Sample.env_tests
      (Sample.call_for "controller_info_advanced" "GET" ["foo"; "fooBar"])
      initial_state = (Ok d, st') ->
    class_name d <> "FooBar".
Proof.
  split; [discriminate|].
  intros d st'.
  apply (proj1 (resolved_class_name_capitalized Sample.env_tests
                  (Sample.call_for "controller_info_advanced" "GET" ["foo"; "fooBar"])
                  "FooBar" ltac:(discriminate))).
Defined.

(** X8. The class block does not look at the letter case of the segment:
    two segments that differ in case only select the same class name. *)
Theorem class_pick_ignores_case (m : pymodule) (s1 s2 : string)
    (rest : list string) :
  PyStr.lower s1 = PyStr.lower s2 ->
  (class_pick m (s1 :: rest)).1 = (class_pick m (s2 :: rest)).1.
Proof.
  intros Hl.
  assert (PyStr.capitalize s1 = PyStr.capitalize s2) as Hc.
  { destruct s1 as [|c1 r1], s2 as [|c2 r2]; try discriminate; [reflexivity|].
    unfold PyStr.lower in Hl. simpl in Hl. injection Hl as Hc Hr.
    unfold PyStr.capitalize, PyStr.lower. rewrite Hr.
    rewrite <- (upper_lower_ascii c1), Hc, upper_lower_ascii. reflexivity. }
  simpl. rewrite Hc.
  destruct (hasattr m (PyStr.capitalize s2)); reflexivity.
Qed.

Lemma class_pick_ignores_case_witness :
  PyStr.lower "BAR" = PyStr.lower "bar" /\
  forall m rest, (class_pick m ("BAR" :: rest)).1 = (class_pick m ("bar" :: rest)).1.
Proof.
  split; [reflexivity|].
  intros m rest. apply (class_pick_ignores_case m "BAR" "bar" rest). reflexivity.
Defined.

(** X9. A successful simple resolution uses exactly the first two path
    segments: the module is the prefix extended by the first segment
    ([default] when the path is empty), the class is the capitalized second
    segment ([Default] when there is none), every further segment is a
    positional argument, and neither of the two segments used begins with
    an underscore. *)
Theorem simple_resolution_shape (env : Env) (c : Call) (d : ControllerInfo) :
  get_controller_info_simple env c = Ok d ->
  let path := path_args (request c) in
  exists prefix,
    get_normalized_prefix env c = Ok prefix /\
    module_name d =
      (if PyStr.truthy prefix
       then PyStr.join "." [prefix; default "default" (path !! 0)]
       else default "default" (path !! 0)) /\
    class_name d = default "Default" (PyStr.capitalize <$> path !! 1) /\
    args d = drop 2 path /\
    kwargs d = query_kwargs (request c) /\
    import_module env (module_name d) = Ok (module d) /\
    getattr (module d) (class_name d) = Ok (class d) /\
    forall i seg, i < 2 -> path !! i = Some seg -> PyStr.startswith seg "_" = false.
Proof.
  intros H path. subst path. revert H. unfold get_controller_info_simple.
  destruct (path_args (request c)) as [|s0 rest0].
  - destruct (get_normalized_prefix env c) as [prefix|]; [|discriminate].
    destruct (import_module env _) as [m|] eqn:Him; [|discriminate].
    destruct (getattr m "Default") as [cls|] eqn:Hga; [|discriminate].
    intros [= <-]. exists prefix. simpl. repeat split; try assumption.
    intros i seg _ [=].
  - destruct (PyStr.startswith s0 "_") eqn:H0; [discriminate|].
    destruct (get_normalized_prefix env c) as [prefix|]; [|discriminate].
    destruct rest0 as [|s1 rest1].
    + destruct (import_module env _) as [m|] eqn:Him; [|discriminate].
      destruct (getattr m "Default") as [cls|] eqn:Hga; [|discriminate].
      intros [= <-]. exists prefix. simpl. repeat split; try assumption.
      intros i seg Hi Hl. destruct i as [|[|i]]; simpl in Hl;
        try discriminate; try lia; injection Hl as <-; assumption.
    + destruct (PyStr.startswith s1 "_") eqn:H1; [discriminate|].
      destruct (import_module env _) as [m|] eqn:Him; [|discriminate].
      destruct (getattr m _) as [cls|] eqn:Hga; [|discriminate].
      intros [= <-]. exists prefix. simpl. repeat split; try assumption.
      intros i seg Hi Hl. destruct i as [|[|i]]; simpl in Hl;
        try discriminate; try lia; injection Hl as <-; assumption.
Qed.

Lemma simple_resolution_shape_witness :
  exists d,
    get_controller_info_simple Sample.env_tests
      (Sample.call_for "controller_info_advanced" "GET" ["foo"; "bar"; "happy"; "sad"])
      = Ok d /\
    module_name d = "controller_info_advanced.foo" /\
    class_name d = "Bar" /\
    args d = ["happy"; "sad"].
Proof.
  eexists. split; [vm_compute; reflexivity|].
  destruct (simple_resolution_shape Sample.env_tests
              (Sample.call_for "controller_info_advanced" "GET"
                 ["foo"; "bar"; "happy"; "sad"]) _ ltac:(vm_compute; reflexivity))
    as (prefix & Hp & Hm & Hc & Ha & _).
  injection Hp as <-.
  split; [exact Hm|]. split; [exact Hc | exact Ha].
Defined.

(** ** Further properties of [Call.handle] and of version negotiation *)

(** X10. [handle] answers a failed resolution with the status of the
    failure and the error as body: a 404 when the gathering of the
    controller info raises an [ImportError] or an [AttributeError], in which
    case no controller code has run and the headers are those the response
    had; a 405 when the controller instance lacks the method named after the
    upper-case HTTP method, in which case the headers are those the
    constructor of the controller has left. *)
Theorem handle_resolution_failure (env : Env) (c : Call) (st : pystate) :
  (forall e st',
     get_controller_info env c st = (Raise e, st') ->
     is_ImportError_or_AttributeError e = true ->
     handle env c st =
       (Ok {| resp_code := 404;
              resp_headers := resp_headers (response c);
              resp_body :=
                BodyError (CallError 404 (not_found_message (request c) e)) |},
        st')) /\
  (forall d st' instance r,
     get_controller_info env c st = (Ok d, st') ->
     construct (class d) (request c) (response c) = (Ok instance, r) ->
     inst_set_call instance = Ok tt ->
     inst_attrs instance !! PyStr.upper (req_method (request c)) = None ->
     handle env c st =
       (Ok {| resp_code := 405;
              resp_headers := resp_headers r;
              resp_body :=
                BodyError (CallError 405 (not_supported_message (request c))) |},
        st')).
Proof.
  split.
  - intros e st' H He. unfold handle.
    rewrite (get_callback_info_gather_raises _ _ _ _ _ H), He. reflexivity.
  - intros d st' instance r H Hc Hs Hm. unfold handle.
    rewrite (get_callback_info_gather_ok _ _ _ _ _ H).
    destruct (advanced_inv _ _ _ _ _ H)
      as (_ & _ & _ & _ & _ & _ & _ & _ & _ & _ & Hmeth).
    unfold instantiate, getattr_instance.
    rewrite Hc, Hs, Hmeth, Hm. reflexivity.
Qed.

Lemma handle_resolution_failure_witness :
  exists st1 st2,
    handle Sample.env_tests
      (Sample.call_for "controller_info_advanced" "GET" ["foo"; "boom"])
      initial_state =
      (Ok {| resp_code := 404;
             resp_headers := resp_headers Sample.fresh_response;
             resp_body :=
               BodyError (CallError 404
                 (not_found_message
                    (request (Sample.call_for "controller_info_advanced" "GET"
                                ["foo"; "boom"]))
                    (Exc AttributeError
                       "'module' object has no attribute 'Default'"))) |},
       st1) /\
    handle env_writer (Sample.call_for "R" "GET" []) initial_state =
      (Ok {| resp_code := 405;
             resp_headers :=
               resp_headers
                 (set_header "Access-Control-Allow-Origin" (Some "*")
                    Sample.fresh_response);
             resp_body :=
               BodyError (CallError 405
                 (not_supported_message
                    (request (Sample.call_for "R" "GET" [])))) |},
       st2).
Proof.
  eexists. eexists. split.
  - apply (proj1 (handle_resolution_failure Sample.env_tests
              (Sample.call_for "controller_info_advanced" "GET" ["foo"; "boom"])
              initial_state)
              (Exc AttributeError "'module' object has no attribute 'Default'"));
      vm_compute; reflexivity.
  - eapply (proj2 (handle_resolution_failure env_writer
              (Sample.call_for "R" "GET" []) initial_state));
      vm_compute; reflexivity.
Defined.

(** X11. [handle] sets the [Content-Type] header to the content type of the
    call on the response the constructor has left, before the callback
    runs: the callback sees the header and may replace it.  When the
    callback returns, the response returned is the one the callback has
    left, with the returned value as body; if the callback does not write
    to the response, the header is the content type of the call and the
    code and the other headers are those the constructor has left. *)
Theorem handle_success (env : Env) (c : Call) (st st' : pystate)
    (callback : Callback) (callback_args : list string)
    (callback_kwargs : gmap string string) (body : string) (r1 r2 : Response) :
  get_callback_info env c st
    = (Ok (callback, callback_args, callback_kwargs), r1, st') ->
  callback callback_args callback_kwargs
    (set_header "Content-Type" (content_type c) r1) = (Ok body, r2) ->
  exists r,
    handle env c st = (Ok r, st') /\
    resp_body r = BodyValue body /\
    resp_code r = resp_code r2 /\
    resp_headers r = resp_headers r2 /\
    (r2 = set_header "Content-Type" (content_type c) r1 ->
     resp_code r = resp_code r1 /\
     resp_headers r !! "Content-Type" = Some (content_type c) /\
     forall k, k <> "Content-Type" -> resp_headers r !! k = resp_headers r1 !! k).
Proof.
  intros Hcb Hbody. unfold handle. rewrite Hcb. cbv zeta. rewrite Hbody.
  eexists. split; [reflexivity|]. simpl. repeat split.
  - subst r2. reflexivity.
  - subst r2. apply lookup_insert_eq.
  - intros k Hk. subst r2. apply lookup_insert_ne. congruence.
Qed.

Lemma handle_success_witness :
  exists r st',
    handle env_writer (Sample.call_for "R" "POST" []) initial_state = (Ok r, st') /\
    resp_body r = BodyValue "made" /\
    resp_code r = 201%Z /\
    resp_headers r =
      {[ "Content-Type" := Some "application/json";
         "Access-Control-Allow-Origin" := Some "*" ]}.
Proof.
  destruct (handle_success env_writer (Sample.call_for "R" "POST" [])
              initial_state
              (snd (get_callback_info env_writer
                      (Sample.call_for "R" "POST" []) initial_state))
              (fun _ _ r => (Ok "made", set_code 201 r)) [] ∅ "made"
              (set_header "Access-Control-Allow-Origin" (Some "*")
                 Sample.fresh_response)
              (set_code 201
                 (set_header "Content-Type" (Some "application/json")
                    (set_header "Access-Control-Allow-Origin" (Some "*")
                       Sample.fresh_response)))
              ltac:(vm_compute; reflexivity) eq_refl)
    as (r & Hh & Hb & Hc & Hhd & _).
  exists r, (snd (get_callback_info env_writer
                    (Sample.call_for "R" "POST" []) initial_state)).
  split; [exact Hh|]. split; [exact Hb|]. split; [exact Hc|].
  rewrite Hhd. vm_compute. reflexivity.
Defined.

(** [get_version] never returns an empty version. *)
Lemma get_version_nonempty (env : Env) (c : Call) (v : string) :
  get_version env c = Ok v -> v <> "".
Proof.
  unfold get_version.
  destruct (negb (PyStr.truthy_opt (content_type c))); [discriminate|].
  match goal with
  | |- context [negb (PyStr.truthy_opt ?x)] =>
      destruct (PyStr.truthy_opt x) eqn:Hx; simpl negb; cbv iota;
      [destruct x as [[|a s]|]; try discriminate Hx; intros [= <-]; discriminate|]
  end.
  destruct (default_version c) as [[|a s]|]; simpl; try discriminate.
  intros [= <-]. discriminate.
Qed.

(** Without a version in the Accept header the outcome of [get_version] is
    decided by the default version. *)
Lemma get_version_without_version (env : Env) (c : Call) (ct : string) :
  content_type c = Some ct ->
  ct <> "" ->
  Forall (fun x => carries_version x = false) (compatible_entries env c ct) ->
  get_version env c =
    if PyStr.truthy_opt (default_version c)
    then Ok (default "" (default_version c))
    else Raise (CallError 406
                  ("Expected accept header with " +:+ ct +:+ ";version=N media type")).
Proof.
  intros Hct Hne Hall.
  assert (PyStr.truthy_opt (content_type c) = true) as Htr
    by (rewrite Hct; simpl; apply truthy_nonempty; exact Hne).
  unfold get_version. unfold compatible_entries in Hall.
  rewrite Htr, Hct. simpl negb. cbv iota. simpl str_of_opt.
  set (header := default "" (req_headers (request c) !! "accept")) in *.
  assert (PyStr.truthy_opt
            (if PyStr.truthy header
             then version_loop None (accept_filter env header ct)
             else None) = false) as Hfalse.
  { destruct (PyStr.truthy header); [|reflexivity].
    apply version_loop_none; [reflexivity | exact Hall]. }
  rewrite Hfalse. simpl negb. cbv iota.
  destruct (PyStr.truthy_opt (default_version c)); reflexivity.
Qed.

(** X12. For a [VersionCall] the normalized prefix is the controller prefix
    followed by a dot and the negotiated version (the version alone when
    the controller prefix is empty); the version is never empty, so the
    prefix handed to [get_controllers] is never empty, and
    [get_controllers] answers from the cache, without a state change,
    whenever the cache holds that prefix. *)
Theorem version_prefix_nonempty (env : Env) (c : Call) (p : string) :
  call_cls c = VersionCall_class ->
  get_normalized_prefix env c = Ok p ->
  exists v,
    get_version env c = Ok v /\
    v <> "" /\
    p = (if PyStr.truthy (controller_prefix c)
         then controller_prefix c +:+ "." +:+ v else v) /\
    p <> "" /\
    forall st cached, module_cache st !! p = Some cached ->
      get_controllers env p st = (Ok cached, st).
Proof.
  intros Hcls. unfold get_normalized_prefix. rewrite Hcls.
  destruct (get_version env c) as [v|e] eqn:Hv; [|discriminate].
  pose proof (get_version_nonempty _ _ _ Hv) as Hne.
  intros Hp. exists v.
  assert (p <> "") as Hpne.
  { destruct (controller_prefix c) as [|a cp]; simpl in Hp;
      injection Hp as <-; [exact Hne | discriminate]. }
  repeat split; try assumption.
  - destruct (PyStr.truthy (controller_prefix c)); congruence.
  - intros st w Hw. unfold get_controllers.
    destruct p as [|a p]; [congruence|]. simpl. rewrite Hw. reflexivity.
Qed.

Lemma version_prefix_nonempty_witness :
  get_normalized_prefix Sample.env_versions
    (Sample.version_call (Some Sample.accept_v1) None) = Ok "R.v1" /\
  exists v,
    get_version Sample.env_versions
      (Sample.version_call (Some Sample.accept_v1) None) = Ok v /\
    v <> "" /\
    "R.v1" = "R" +:+ "." +:+ v /\
    "R.v1" <> "" /\
    forall st cached, module_cache st !! "R.v1" = Some cached ->
      get_controllers Sample.env_versions "R.v1" st = (Ok cached, st).
Proof.
  split; [vm_compute; reflexivity|].
  exact (version_prefix_nonempty Sample.env_versions
           (Sample.version_call (Some Sample.accept_v1) None) "R.v1"
           eq_refl ltac:(vm_compute; reflexivity)).
Defined.

(** X13. A [VersionCall] with a declared content type whose request names
    no version in a compatible Accept entry, and without default version, is
    answered by [handle] with a 406 carrying the error; no header is set and
    the module cache is not touched, since no module is looked up. *)
Theorem version_call_not_acceptable (env : Env) (c : Call) (st : pystate)
    (ct : string) :
  call_cls c = VersionCall_class ->
  content_type c = Some ct ->
  ct <> "" ->
  Forall (fun x => carries_version x = false) (compatible_entries env c ct) ->
  PyStr.truthy_opt (default_version c) = false ->
  handle env c st =
    (Ok {| resp_code := 406;
           resp_headers := resp_headers (response c);
           resp_body :=
             BodyError (CallError 406
               ("Expected accept header with " +:+ ct +:+ ";version=N media type")) |},
     st).
Proof.
  intros Hcls Hct Hne Hall Hdef.
  pose proof (get_version_without_version env c ct Hct Hne Hall) as Hv.
  rewrite Hdef in Hv.
  unfold handle, get_callback_info, get_controller_info,
    get_controller_info_advanced, bind, try_except, lift, raise.
  unfold get_normalized_prefix. rewrite Hcls, Hv. reflexivity.
Qed.

Lemma version_call_not_acceptable_witness :
  handle Sample.env_versions (Sample.version_call None None) initial_state =
    (Ok {| resp_code := 406;
           resp_headers := ∅;
           resp_body :=
             BodyError (CallError 406
               "Expected accept header with application/json;version=N media type") |},
     initial_state).
Proof.
  apply (version_call_not_acceptable Sample.env_versions
           (Sample.version_call None None) initial_state "application/json");
    try reflexivity; [discriminate | constructor].
Defined.


(** X15. For a request path that reaches a module other than the prefix
    itself, the dotted name of that module is one of the identifiers
    [get_controllers] derives from the package tree: the prefix joined with
    the directories of a package marker, or with the directories and the
    root of the name of a [.py] file whose name does not begin with an
    underscore.  The statement is about names; which file the import of
    such a name loads is the business of the import system. *)
Theorem resolution_selects_discovered_file (env : Env) (c : Call)
    (st st' : pystate) (d : ControllerInfo) (p : string) (m : pymodule)
    (t : dirtree) :
  get_normalized_prefix env c = Ok p ->
  module_cache st !! p = None ->
  import_module env p = Ok m ->
  os_walk env (PyStr.dirname (mod_file m)) = Some t ->
  get_controller_info_advanced env c st = (Ok d, st') ->
  module_name d = p \/
  exists rel files f,
    In (rel, files) (directories [] t) /\
    In f files /\ PyStr.endswith f ".py" = true /\
    ((PyStr.startswith f "__init__" = true /\
      module_name d = PyStr.join "." (p :: rel)) \/
     (PyStr.startswith f "_" = false /\
      module_name d = PyStr.join "." (p :: rel ++ [PyStr.splitext_root f]))).
Proof.
  intros Hp Hc Hm Ht H.
  destruct (advanced_inv _ _ _ _ _ H)
    as (prefix & cset & Hp' & Hgc & Hmn & _).
  rewrite Hp in Hp'. injection Hp' as <-.
  assert (p <> "") as Hne.
  { intros ->. unfold get_controllers in Hgc. simpl in Hgc. discriminate. }
  destruct (get_controllers_first env p st m Hne Hc Hm) as (st1 & Hcall & Hheap).
  rewrite Hcall in Hgc. injection Hgc as <- <-.
  rewrite Hmn.
  destruct (module_walk_in_set (contains st1 (SetRef (length (heap st)))) p
              (path_args (request c))) as [Heq | Hin]; [left; exact Heq|].
  right. unfold contains in Hin at 1. rewrite Hheap, Ht in Hin.
  rewrite bool_decide_eq_true, elem_of_walk in Hin.
  destruct Hin as [Hin | Hin]; [set_solver | exact Hin].
Qed.

Lemma resolution_selects_discovered_file_witness :
  exists d st',
    get_controller_info_advanced Sample.env_nested
      (Sample.call_for "R" "GET" ["a"; "b"; "c"]) initial_state = (Ok d, st') /\
    (module_name d = "R" \/
     exists rel files f,
       In (rel, files) (directories [] Sample.tree_nested) /\
       In f files /\ PyStr.endswith f ".py" = true /\
       ((PyStr.startswith f "__init__" = true /\
         module_name d = PyStr.join "." ("R" :: rel)) \/
        (PyStr.startswith f "_" = false /\
         module_name d = PyStr.join "." ("R" :: rel ++ [PyStr.splitext_root f])))).
Proof.
  eexists _, _. split; [vm_compute; reflexivity|].
  eapply (resolution_selects_discovered_file Sample.env_nested
            (Sample.call_for "R" "GET" ["a"; "b"; "c"]) initial_state)
    with (p := "R")
         (m := {| mod_file := "/srv/R/__init__.py";
                  mod_attrs := {[ "Default" := Sample.default_get ]} |})
         (t := Sample.tree_nested);
    vm_compute; reflexivity.
Defined.

(** The identifier and the file can differ: the file [a._b.py] at the top of
    the package gives the identifier [R.a._b], under which the import
    system finds the private module [a/_b.py]; the path [/a/_b] then
    resolves to that module. *)
Example dotted_file_name :
  exists d st',
    get_controller_info_advanced env_dotted
      (Sample.call_for "R" "GET" ["a"; "_b"]) initial_state = (Ok d, st') /\
    module_name d = "R.a._b" /\
    mod_file (module d) = "/srv/R/a/_b.py" /\
    args d = [].
Proof. eexists _, _. repeat split; vm_compute; reflexivity. Qed.


(** ** [path_route] and [param_route] *)

Section RouteTargets.
Import Decorators Routes.

Lemma paths_loop_prefix (pas method_args : list string) :
  paths_loop pas method_args = true <->
  exists rest, method_args = (pas ++ rest)%list.
Proof.
  revert method_args. induction pas as [|p pas IH]; intros method_args; simpl.
  - split; [intros _; exists method_args; reflexivity | reflexivity].
  - destruct method_args as [|a method_args].
    + split; [discriminate | intros (rest & [=])].
    + destruct (String.eqb_spec a p) as [->|Hne].
      * rewrite IH. split; intros (rest & H); exists rest; congruence.
      * split; [discriminate | intros (rest & [= H _]); contradiction].
Qed.

(** X16. After [path_route.decorate] with the paths [paths], the target of
    the decorator accepts a request exactly when the normalized paths are
    the leading method arguments of the request, in order; with fewer
    arguments than paths the request is refused, and the target never
    raises. *)
Theorem path_route_accepts (env : DecEnv) (self : DecoratorInstance)
    (func : ControllerMethod) (paths : list string) :
  exists self',
    path_route_decorate env self func paths = ByTarget func path_route_target self' /\
    forall request,
      exists b,
        path_route_target env self' request = DOk b /\
        (b = true <->
         exists rest,
           method_args env request = (normalize_paths env paths ++ rest)%list) /\
        (length (method_args env request) < length (normalize_paths env paths) ->
         b = false).
Proof.
  exists (<["paths" := VStrings paths]> self). split; [reflexivity|].
  intros request. unfold path_route_target, self_attr.
  replace (<["paths" := VStrings paths]> self !! "paths")
    with (Some (VStrings paths)) by (symmetry; apply lookup_insert_eq).
  simpl.
  eexists. split; [reflexivity|]. split; [apply paths_loop_prefix|].
  intros Hlt.
  destruct (paths_loop _ _) eqn:Hl; [|reflexivity].
  apply paths_loop_prefix in Hl. destruct Hl as (rest & Hrest).
  rewrite Hrest, length_app in Hlt. lia.
Qed.

Lemma keys_loop_spec (method_kwargs : gmap string string) (keys : list string) :
  keys_loop method_kwargs keys = true <->
  forall k, In k keys -> is_Some (method_kwargs !! k).
Proof.
  induction keys as [|k keys IH]; simpl.
  - split; [intros _ k [] | reflexivity].
  - destruct (bool_decide (is_Some (method_kwargs !! k))) eqn:Hk; simpl.
    + apply bool_decide_eq_true in Hk. rewrite IH. split.
      * intros H k' [<- | Hin]; auto.
      * intros H k' Hin. apply H. auto.
    + apply bool_decide_eq_false in Hk. split; [discriminate|].
      intros H. exfalso. apply Hk, H. auto.
Qed.

Lemma matches_loop_spec
    (convert : match_value -> string -> dresult match_value)
    (method_kwargs : gmap string string) (matches : list (string * match_value)) :
  matches_loop convert method_kwargs matches = DOk true <->
  forall k v, In (k, v) matches ->
    exists x w, method_kwargs !! k = Some x /\ convert v x = DOk w /\ py_ne w v = false.
Proof.
  induction matches as [|[k v] matches IH]; simpl.
  - split; [intros _ k v [] | reflexivity].
  - destruct (method_kwargs !! k) as [x|] eqn:Hx.
    + destruct (convert v x) as [w|e] eqn:Hw.
      * destruct (py_ne w v) eqn:Hne.
        -- split; [discriminate|]. intros H.
           destruct (H k v (or_introl eq_refl)) as (x' & w' & Hx' & Hw' & Hne').
           congruence.
        -- rewrite IH. split.
           ++ intros H k' v' [[= <- <-] | Hin]; [eauto | auto].
           ++ intros H k' v' Hin. apply H. auto.
      * split.
        -- destruct (is_KeyError e); discriminate.
        -- intros H.
           destruct (H k v (or_introl eq_refl)) as (x' & w' & Hx' & Hw' & _).
           congruence.
    + split; [discriminate|]. intros H.
      destruct (H k v (or_introl eq_refl)) as (x' & w' & Hx' & _). congruence.
Qed.

(** X17. [param_route.target] accepts a request exactly when every key is
    among the keyword arguments and, for every match, the keyword argument
    exists and converts, without error, to a value equal to the expected
    one.  A missing key or argument refuses the request without raising. *)
Theorem param_route_accepts
    (convert : match_value -> string -> dresult match_value)
    (method_kwargs : gmap string string) (keys : list string)
    (matches : list (string * match_value)) :
  (param_route_target convert method_kwargs keys matches = DOk true <->
   (forall k, In k keys -> is_Some (method_kwargs !! k)) /\
   (forall k v, In (k, v) matches ->
      exists x w, method_kwargs !! k = Some x /\ convert v x = DOk w /\
                  py_ne w v = false)) /\
  (forall k, In k keys -> method_kwargs !! k = None ->
     param_route_target convert method_kwargs keys matches = DOk false).
Proof.
  unfold param_route_target. split.
  - destruct (keys_loop method_kwargs keys) eqn:Hk.
    + pose proof (proj1 (keys_loop_spec _ _) Hk) as Hkeys.
      rewrite matches_loop_spec. tauto.
    + split; [discriminate|]. intros [H _].
      pose proof (proj2 (keys_loop_spec _ _) H). congruence.
  - intros k Hin Hnone.
    destruct (keys_loop method_kwargs keys) eqn:Hk; [|reflexivity].
    pose proof (proj1 (keys_loop_spec _ _) Hk) as Hkeys.
    destruct (Hkeys k Hin) as [x Hx]. congruence.
Qed.

Example path_route_sample :
  path_route_target SampleRoutes.dec_env {[ "paths" := VStrings ["bar"; "che"] ]}
    (Sample.request_for "GET" ["bar"; "che"; "1"]) = DOk true /\
  path_route_target SampleRoutes.dec_env {[ "paths" := VStrings ["bar"; "che"] ]}
    (Sample.request_for "GET" ["bar"]) = DOk false /\
  path_route_target SampleRoutes.dec_env {[ "paths" := VStrings ["bar"; "che"] ]}
    (Sample.request_for "GET" ["bar"; "baz"]) = DOk false.
Proof. repeat split. Qed.

Example param_route_sample :
  param_route_target SampleRoutes.convert {[ "foo" := "1"; "bar" := "x" ]}
    ["bar"] [("foo", MInt 1)] = DOk true /\
  param_route_target SampleRoutes.convert {[ "foo" := "2"; "bar" := "x" ]}
    ["bar"] [("foo", MInt 1)] = DOk false /\
  param_route_target SampleRoutes.convert {[ "foo" := "1" ]}
    ["bar"] [("foo", MInt 1)] = DOk false /\
  param_route_target SampleRoutes.convert {[ "bar" := "x" ]}
    ["bar"] [("foo", MInt 1)] = DOk false /\
  param_route_target SampleRoutes.convert {[ "foo" := "one"; "bar" := "x" ]}
    ["bar"] [("foo", MInt 1)]
    = DRaise (Base (Exc ValueError "invalid literal for int() with base 10")).
Proof. repeat split. Qed.

End RouteTargets.

(** ** The request and response of a call, and the cache under [handle] *)

(** X18. The [request] and [response] properties create their object on the
    first read and keep it: every later read returns that same object and
    changes nothing, whatever object a fresh construction would give then;
    a read after an assignment returns the assigned object; and neither
    property disturbs the other. *)
Theorem call_properties_stable (new_request : Request) (new_response : Response)
    (self : CallAttrs) :
  (let (r1, self1) := request_get new_request self in
   (forall other, request_get other self1 = (r1, self1)) /\
   _response self1 = _response self) /\
  (let (r1, self1) := response_get new_response self in
   (forall other, response_get other self1 = (r1, self1)) /\
   _request self1 = _request self) /\
  (forall v other, request_get other (request_set v self) = (v, request_set v self)) /\
  (forall v other, response_get other (response_set v self) = (v, response_set v self)) /\
  (forall v, (response_get new_response (request_set v self)).1
             = (response_get new_response self).1).
Proof.
  unfold request_get, response_get, request_set, response_set.
  destruct self as [[rq|] [rs|]]; simpl; repeat split.
Qed.

(** The state after a resolution is the state before it or the one a call
    of [get_controllers] has left. *)
Lemma advanced_state (env : Env) (c : Call) (st : pystate) :
  snd (get_controller_info_advanced env c st) = st \/
  exists prefix,
    snd (get_controller_info_advanced env c st) = snd (get_controllers env prefix st).
Proof.
  unfold get_controller_info_advanced, bind, lift, get_state, ret.
  destruct (get_normalized_prefix env c) as [prefix|e]; [|left; reflexivity].
  right. exists prefix.
  destruct (get_controllers env prefix st) as [[cset|e] st1]; [|reflexivity].
  destruct (module_walk _ _ _ _) as [mname rest].
  destruct (import_module env mname) as [m|e]; [|reflexivity].
  destruct (class_pick m rest) as [cname rest'].
  destruct (getattr m cname); reflexivity.
Qed.

Lemma handle_state (env : Env) (c : Call) (st : pystate) :
  snd (handle env c st) = snd (get_controller_info_advanced env c st).
Proof.
  unfold handle, get_callback_info, get_controller_info, bind, try_except,
    raise, lift, ret.
  destruct (get_controller_info_advanced env c st) as [[d|e] st1]; simpl.
  - destruct (instantiate c d) as [[cb|e] r]; simpl.
    + destruct (cb (args d) (kwargs d) _) as [[body|e] r']; reflexivity.
    + destruct (is_AttributeError e); reflexivity.
  - destruct (is_ImportError_or_AttributeError e); reflexivity.
Qed.

(** X19. Handling a request never removes or replaces an entry of the module
    cache and never changes a set object that exists: what the cache holds
    for a prefix before [handle] it still holds after, whether the request
    succeeds, fails or raises, and the state stays well formed. *)
Theorem handle_preserves_cache (env : Env) (c : Call) (st : pystate) :
  let st' := snd (handle env c st) in
  (forall p v, module_cache st !! p = Some v -> module_cache st' !! p = Some v) /\
  (forall l s, heap st !! l = Some s -> heap st' !! l = Some s) /\
  (cache_wf st -> cache_wf st').
Proof.
  intros st'. subst st'. rewrite handle_state.
  destruct (advanced_state env c st) as [-> | (prefix & ->)]; [auto|].
  destruct (get_controllers_preserves env prefix st) as [Hc Hh].
  split; [exact Hc|]. split; [exact Hh|]. apply get_controllers_wf.
Qed.

(** X20. Resolution sees the HTTP method only through its upper-case form:
    the same request sent with two spellings of the method that differ in
    letter case resolves to the same controller info, method name included,
    in the same state. *)
Theorem resolution_method_case (env : Env) (c : Call) (m1 m2 : string)
    (st : pystate) :
  PyStr.upper m1 = PyStr.upper m2 ->
  get_controller_info_advanced env (with_method m1 c) st
    = get_controller_info_advanced env (with_method m2 c) st.
Proof.
  intros Hm.
  unfold get_controller_info_advanced, bind, lift, get_state, ret.
  change (get_normalized_prefix env (with_method m1 c))
    with (get_normalized_prefix env (with_method m2 c)).
  simpl. rewrite Hm. reflexivity.
Qed.

Lemma resolution_method_case_witness :
  PyStr.upper "get" = PyStr.upper "GET" /\
  get_controller_info_advanced Sample.env_tests
    (with_method "get" (Sample.call_for "controller_info_advanced" "" ["foo"; "bar"]))
    initial_state
  = get_controller_info_advanced Sample.env_tests
      (with_method "GET" (Sample.call_for "controller_info_advanced" "" ["foo"; "bar"]))
      initial_state.
Proof.
  split; [reflexivity|].
  apply (resolution_method_case Sample.env_tests
           (Sample.call_for "controller_info_advanced" "" ["foo"; "bar"])
           "get" "GET" initial_state).
  reflexivity.
Defined.

(** X21. When the callback is found but raises an exception deriving from
    [Exception], [handle] returns the response as the callback has left it,
    with the error as body and the code of the [CallError], or 500 for any
    other exception, whatever code the callback had set; the headers are
    those the callback has left, and if the callback has not written to the
    response they are the [Content-Type] header, already set to the content
    type of the call, and the headers the constructor has left. *)
Theorem handle_callback_raises (env : Env) (c : Call) (st st' : pystate)
    (callback : Callback) (callback_args : list string)
    (callback_kwargs : gmap string string) (e : exn) (r1 r2 : Response) :
  get_callback_info env c st
    = (Ok (callback, callback_args, callback_kwargs), r1, st') ->
  callback callback_args callback_kwargs
    (set_header "Content-Type" (content_type c) r1) = (Raise e, r2) ->
  is_Exception e = true ->
  exists r,
    handle env c st = (Ok r, st') /\
    resp_code r = (match e with CallError code _ => code | Exc _ _ => 500%Z end) /\
    resp_body r = BodyError e /\
    resp_headers r = resp_headers r2 /\
    (r2 = set_header "Content-Type" (content_type c) r1 ->
     resp_headers r !! "Content-Type" = Some (content_type c) /\
     forall k, k <> "Content-Type" -> resp_headers r !! k = resp_headers r1 !! k).
Proof.
  intros Hcb Hraise Hexc. unfold handle. rewrite Hcb. cbv zeta. rewrite Hraise.
  pose proof (handle_except_spec r2 e) as Hs.
  destruct e as [cls m|code m].
  - rewrite Hexc in Hs. destruct Hs as (r & -> & Hcode & Hbody & Hhdr).
    exists r. rewrite Hhdr. repeat split; try assumption.
    + subst r2. apply lookup_insert_eq.
    + intros k Hk. subst r2. apply lookup_insert_ne. congruence.
  - destruct Hs as (r & -> & Hcode & Hbody & Hhdr).
    exists r. rewrite Hhdr. repeat split; try assumption.
    + subst r2. apply lookup_insert_eq.
    + intros k Hk. subst r2. apply lookup_insert_ne. congruence.
Qed.

Lemma handle_callback_raises_witness :
  exists r st',
    handle env_denied (Sample.call_for "R" "GET" []) initial_state = (Ok r, st') /\
    resp_code r = 401%Z /\
    resp_body r = BodyError (CallError 401 "denied") /\
    resp_headers r !! "Content-Type" = Some (Some "application/json").
Proof.
  destruct (handle_callback_raises env_denied
              (Sample.call_for "R" "GET" [])
              initial_state
              (snd (get_callback_info env_denied
                      (Sample.call_for "R" "GET" []) initial_state))
              (Sample.raises (CallError 401 "denied")) [] ∅
              (CallError 401 "denied")
              Sample.fresh_response
              (set_header "Content-Type" (Some "application/json")
                 Sample.fresh_response)
              ltac:(vm_compute; reflexivity) eq_refl eq_refl)
    as (r & Hh & Hc & Hb & _ & Hct).
  exists r, (snd (get_callback_info env_denied
                    (Sample.call_for "R" "GET" []) initial_state)).
  split; [exact Hh|]. split; [exact Hc|]. split; [exact Hb|].
  exact (proj1 (Hct eq_refl)).
Defined.

(** X22. For an empty path, a plain [Call] whose prefix can be imported and
    binds [Default] resolves, in any state, to the prefix module and the
    class [Default] with no positional argument and the query parameters as
    keyword arguments. *)
Theorem advanced_resolution_empty_path (env : Env) (c : Call) (st : pystate)
    (m : pymodule) (cls : pyobject) :
  call_cls c = Call_class ->
  controller_prefix c <> "" ->
  path_args (request c) = [] ->
  import_module env (controller_prefix c) = Ok m ->
  mod_attrs m !! "Default" = Some cls ->
  exists st',
    get_controller_info_advanced env c st =
      (Ok {| module_name := controller_prefix c;
             class_name := "Default";
             module := m;
             class := cls;
             method := PyStr.upper (req_method (request c));
             args := [];
             kwargs := query_kwargs (request c) |}, st').
Proof.
  intros Hcls Hne Hpath Him Hdef.
  assert (exists v st', get_controllers env (controller_prefix c) st = (Ok v, st'))
    as (v & st' & Hgc).
  { destruct (module_cache st !! controller_prefix c) as [v|] eqn:Hc.
    - exists v, st. apply get_controllers_hit; assumption.
    - destruct (get_controllers_first env _ st m Hne Hc Him) as (st1 & Hcall & _).
      eauto. }
  exists st'.
  unfold get_controller_info_advanced, bind, lift, get_state, ret.
  unfold get_normalized_prefix. rewrite Hcls, Hgc, Hpath. simpl.
  rewrite Him. unfold getattr. rewrite Hdef. reflexivity.
Qed.

Lemma advanced_resolution_empty_path_witness :
  exists st',
    get_controller_info_advanced Sample.env_nested
      (Sample.call_for "R" "GET" []) initial_state =
      (Ok {| module_name := "R";
             class_name := "Default";
             module := {| mod_file := "/srv/R/__init__.py";
                          mod_attrs := {[ "Default" := Sample.default_get ]} |};
             class := Sample.default_get;
             method := "GET";
             args := [];
             kwargs := ∅ |}, st').
Proof.
  exact (advanced_resolution_empty_path Sample.env_nested
           (Sample.call_for "R" "GET" []) initial_state
           {| mod_file := "/srv/R/__init__.py";
              mod_attrs := {[ "Default" := Sample.default_get ]} |}
           Sample.default_get eq_refl ltac:(discriminate) eq_refl eq_refl eq_refl).
Defined.
